(** * Session aggregator and detector adapter of [facial.py]

    A shallow embedding of the two classes of [src/facial.py],
    [EmotionDetector] and [EmotionDetectionApp], together with the
    Python primitives they rely on: [collections.deque] with a
    [maxlen], insertion-ordered [dict], binary64 [float] arithmetic and
    its [.2f] formatting, [try]/[except Exception], and the detection
    thread started by [start_detection]. *)

From Stdlib Require Import String Ascii List Bool Arith ZArith Lia.
From Stdlib Require Import QArith Qabs Lqa.
From Stdlib Require Import Floats.SpecFloat.
From Stdlib Require Import DecimalString.
From Stdlib Require Import Permutation.
Import ListNotations.

Local Open Scope nat_scope.

(* ===================================================================== *)
(** * Python primitives *)
(* ===================================================================== *)

(** ** [collections.deque(maxlen=...)] *)

Module Deque.

Record t (A : Type) : Type := mk {
  maxlen : option nat;   (* [None] is an unbounded deque *)
  items  : list A        (* left end first *)
}.

Arguments mk {A} maxlen items.
Arguments maxlen {A} _.
Arguments items {A} _.

(** [deque(maxlen=m)] *)
Definition new {A : Type} (m : option nat) : t A := mk m [].

Definition len {A : Type} (d : t A) : nat := length (items d).

(** [d.append(x)]: the item is added on the right; when the deque is
    then longer than [maxlen], one item is dropped from the left. *)
Definition append {A : Type} (x : A) (d : t A) : t A :=
  let l := items d ++ [x] in
  match maxlen d with
  | None => mk None l
  | Some m => mk (Some m) (if m <? length l then tl l else l)
  end.

(** [d.clear()] keeps [maxlen]. *)
Definition clear {A : Type} (d : t A) : t A := mk (maxlen d) [].

(** [bool(d)] *)
Definition truthy {A : Type} (d : t A) : bool :=
  match items d with [] => false | _ :: _ => true end.

End Deque.

(** ** binary64 [float] *)

Module Float64.

Definition prec : Z := 53.
Definition emax : Z := 1024.

(** [float(z)]; exact for [|z| <= 2^53], rounded to nearest-even
    beyond. *)
Definition of_int (z : Z) : spec_float :=
  binary_normalize prec emax z 0 false.

Definition div : spec_float -> spec_float -> spec_float := SFdiv prec emax.
Definition mul : spec_float -> spec_float -> spec_float := SFmul prec emax.

(** [a / b] on two [int]s below [2^53] in magnitude (both convert
    exactly and the quotient is rounded once); [b] is not zero. *)
Definition int_truediv (a b : Z) : spec_float := div (of_int a) (of_int b).

(** [x * k] for a [float] [x] and an [int] [k]. *)
Definition mul_int (x : spec_float) (k : Z) : spec_float := mul x (of_int k).

(** The rational number a finite float stands for. *)
Definition to_Q (f : spec_float) : Q :=
  match f with
  | S754_finite s m e =>
      let v := match e with
               | Z0 => inject_Z (Zpos m)
               | Zpos p => inject_Z (Zpos m * 2 ^ Zpos p)
               | Zneg p => Qmake (Zpos m) (2 ^ p)
               end in
      if s then Qopp v else v
  | _ => 0%Q
  end.

Definition is_finite (f : spec_float) : bool :=
  match f with
  | S754_finite _ _ _ | S754_zero _ => true
  | _ => false
  end.

(** [|f| * 100] rounded to an integer, ties to even: the digits that
    [.2f] prints. *)
Definition hundredths (f : spec_float) : Z :=
  match f with
  | S754_finite _ m e =>
      match e with
      | Z0 => Zpos m * 100
      | Zpos p => Zpos m * 2 ^ Zpos p * 100
      | Zneg p =>
          let num := (Zpos m * 100)%Z in
          let den := (2 ^ Zpos p)%Z in
          let q := (num / den)%Z in
          let r := (num mod den)%Z in
          match (2 * r ?= den)%Z with
          | Lt => q
          | Gt => (q + 1)%Z
          | Eq => if Z.even q then q else (q + 1)%Z
          end
      end
  | _ => 0%Z
  end.

Definition decimal (z : Z) : string :=
  NilZero.string_of_uint (N.to_uint (Z.to_N z)).

(** [f"{x:.2f}"] *)
Definition format_2f (f : spec_float) : string :=
  match f with
  | S754_nan => "nan"
  | S754_infinity s => if s then "-inf" else "inf"
  | S754_zero s => if s then "-0.00" else "0.00"
  | S754_finite s _ _ =>
      let n := hundredths f in
      let frac := (n mod 100)%Z in
      ((if s then "-" else "")
       ++ decimal (n / 100) ++ "."
       ++ (if (frac <? 10)%Z then "0" else "") ++ decimal frac)%string
  end.

End Float64.

(** ** [dict] with [str] keys, in insertion order *)

Module Dict.

Definition t (V : Type) : Type := list (string * V).

Definition empty {V : Type} : t V := [].

Fixpoint lookup {V : Type} (k : string) (d : t V) : option V :=
  match d with
  | [] => None
  | (k', v) :: rest => if String.eqb k k' then Some v else lookup k rest
  end.

(** [d.get(k, default)] *)
Definition get {V : Type} (k : string) (default : V) (d : t V) : V :=
  match lookup k d with Some v => v | None => default end.

(** [d[k] = v]: an existing key keeps its place, a new key goes last. *)
Fixpoint set {V : Type} (k : string) (v : V) (d : t V) : t V :=
  match d with
  | [] => [(k, v)]
  | (k', v') :: rest =>
      if String.eqb k k' then (k', v) :: rest else (k', v') :: set k v rest
  end.

Definition keys {V : Type} (d : t V) : list string := map fst d.
Definition values {V : Type} (d : t V) : list V := map snd d.

(** [bool(d)] *)
Definition truthy {V : Type} (d : t V) : bool :=
  match d with [] => false | _ :: _ => true end.

End Dict.

(** ** Exceptions and [try]/[except Exception] *)

(** The classes at the top of the exception hierarchy: three derive
    from [BaseException] alone, every other class from [Exception]. *)
Inductive ExcClass : Type :=
| KeyboardInterrupt
| SystemExit
| GeneratorExit
| ExceptionSubclass (name : string).

Record PyExc : Type := {
  exc_class : ExcClass;
  exc_str   : string       (* [str(e)] *)
}.

(** [isinstance(e, Exception)] *)
Definition isinstance_Exception (e : PyExc) : bool :=
  match exc_class e with
  | ExceptionSubclass _ => true
  | KeyboardInterrupt | SystemExit | GeneratorExit => false
  end.

(** Outcome of evaluating Python code: a value, or a raised exception. *)
Inductive result (A : Type) : Type :=
| Return (a : A)
| Raise (e : PyExc).

Arguments Return {A} a.
Arguments Raise {A} e.

Definition bind {A B : Type} (m : result A) (k : A -> result B) : result B :=
  match m with
  | Return a => k a
  | Raise e => Raise e
  end.

Notation "x <- m ;; k" := (bind m (fun x => k))
  (at level 61, m at next level, right associativity).

(** [seq[0]] on a list. *)
Definition index0 {A : Type} (l : list A) : result A :=
  match l with
  | x :: _ => Return x
  | [] => Raise {| exc_class := ExceptionSubclass "IndexError";
                   exc_str := "list index out of range" |}
  end.

(** [l[a:b]] with [0 <= a] and [0 <= b]. *)
Definition slice {A : Type} (a b : nat) (l : list A) : list A :=
  firstn (b - a) (skipn a l).

(** [sep.join(parts)] *)
Fixpoint join (sep : string) (parts : list string) : string :=
  match parts with
  | [] => ""
  | [p] => p
  | p :: rest => (p ++ sep ++ join sep rest)%string
  end.

Definition newline : string := String (ascii_of_nat 10) "".

(** An [int] or a [float]. *)
Inductive PyNum : Type :=
| PyInt (z : Z)
| PyFloat (f : spec_float).

(* ===================================================================== *)
(** * External collaborators *)
(* ===================================================================== *)

(** A BGR frame: rows of pixels. *)
Definition Pixel : Type := (N * N * N)%type.
Definition Frame : Type := list (list Pixel).
Definition Gray : Type := list (list N).

(** A detected region [(x, y, w, h)]. *)
Definition Box : Type := (nat * nat * nat * nat)%type.

(** The two keys that [detect_emotion] reads in an analysis result:
    [result.get('dominant_emotion', None)] and [result['emotion']]
    ([None] here when the key is missing). *)
Record Analysis : Type := {
  key_dominant_emotion : option string;
  key_emotion : option (Dict.t spec_float)
}.

(** OpenCV and DeepFace: black boxes that return or raise. *)
Record Collaborators : Type := {
  cvtColor : Frame -> result Gray;
  detectMultiScale : Gray -> result (list Box);
  DeepFace_analyze : Frame -> result (list Analysis)
}.

(** An instant returned by [datetime.now()]. *)
Definition Instant : Type := Z.

(* ===================================================================== *)
(** * [class EmotionDetector] *)
(* ===================================================================== *)

Record EmotionDetector : Type := {
  emotion_history    : Deque.t string;
  emotion_timestamps : Deque.t Instant
}.

(** [__init__]; the cascade classifier is part of [Collaborators]. *)
Definition EmotionDetector_init : EmotionDetector :=
  {| emotion_history    := Deque.new (Some 100);
     emotion_timestamps := Deque.new (Some 100) |}.

(** What [detect_emotion] returns: [(face_box, emotion_label, confidence)]. *)
Definition Detection : Type := (option Box * option string * PyNum)%type.

Definition nothing_detected : Detection := (None, None, PyInt 0).

(** [frame[y:y+h, x:x+w]] *)
Definition crop (frame : Frame) (x y w h : nat) : Frame :=
  map (slice x (x + w)) (slice y (y + h) frame).

(** [result['emotion']] *)
Definition getitem_emotion (r : Analysis) : result (Dict.t spec_float) :=
  match key_emotion r with
  | Some scores => Return scores
  | None => Raise {| exc_class := ExceptionSubclass "KeyError";
                     exc_str := "'emotion'" |}
  end.

(** [scores.get(emotion_label, 0)]: the keys are strings, so a [None]
    label finds nothing. *)
Definition scores_get (emotion_label : option string)
    (scores : Dict.t spec_float) : PyNum :=
  match emotion_label with
  | Some label =>
      match Dict.lookup label scores with
      | Some s => PyFloat s
      | None => PyInt 0
      end
  | None => PyInt 0
  end.

(** The body of the [try] in [detect_emotion]. *)
Definition detect_emotion_try (E : Collaborators) (frame : Frame)
    : result Detection :=
  gray <- cvtColor E frame ;;
  faces <- detectMultiScale E gray ;;
  if 0 <? length faces then
    face <- index0 faces ;;
    let '(x, y, w, h) := face in
    let face_img := crop frame x y w h in
    results <- DeepFace_analyze E face_img ;;
    result <- index0 results ;;
    let emotion_label := key_dominant_emotion result in
    scores <- getitem_emotion result ;;
    Return (Some (x, y, w, h), emotion_label, scores_get emotion_label scores)
  else
    Return nothing_detected.

(** [detect_emotion]: the lines printed, and the outcome.  The handler
    is [except Exception as e]. *)
Definition detect_emotion (E : Collaborators) (frame : Frame)
    : list string * result Detection :=
  match detect_emotion_try E frame with
  | Return r => ([], Return r)
  | Raise e =>
      if isinstance_Exception e then
        (["Error in detecting emotion: " ++ exc_str e]%string,
         Return nothing_detected)
      else ([], Raise e)
  end.

(** The counting loop of [get_emotion_stats]:
    [emotion_counts[emotion] = emotion_counts.get(emotion, 0) + 1]. *)
Definition count_emotions (history : list string) : Dict.t Z :=
  fold_left
    (fun emotion_counts emotion =>
       Dict.set emotion (Dict.get emotion 0%Z emotion_counts + 1)%Z
                emotion_counts)
    history Dict.empty.

(** [count / total * 100] *)
Definition percentage (count total : Z) : spec_float :=
  Float64.mul_int (Float64.int_truediv count total) 100.

(** [get_emotion_stats] *)
Definition get_emotion_stats (d : EmotionDetector) : Dict.t spec_float :=
  if negb (Deque.truthy (emotion_history d)) then Dict.empty
  else
    let emotion_counts := count_emotions (Deque.items (emotion_history d)) in
    let total := Z.of_nat (Deque.len (emotion_history d)) in
    map (fun ec => (fst ec, percentage (snd ec) total)) emotion_counts.

(** [reset_emotion_history] *)
Definition reset_emotion_history (d : EmotionDetector) : EmotionDetector :=
  {| emotion_history    := Deque.clear (emotion_history d);
     emotion_timestamps := Deque.clear (emotion_timestamps d) |}.

(* ===================================================================== *)
(** * [class EmotionDetectionApp] *)
(* ===================================================================== *)

(** Where a [run_detection] thread stands. *)
Inductive ThreadPc : Type :=
| AtWhile                              (* about to test [detection_active] *)
| AtRead                               (* test passed, about to [cap.read()] *)
| AtDetect (frame : Frame)             (* about to call [detect_emotion] *)
| AtRecord (emotion : option string)   (* about to run [if emotion:] *)
| Finished.                            (* left the loop, or died *)

Record EmotionDetectionApp : Type := {
  detector            : EmotionDetector;
  detection_active    : bool;
  emotion_stats_label : string;        (* text of the statistics label *)
  threads             : list ThreadPc  (* the threads started so far *)
}.

(** The state once [__init__] has built the window. *)
Definition EmotionDetectionApp_init : EmotionDetectionApp :=
  {| detector := EmotionDetector_init;
     detection_active := false;
     emotion_stats_label := "Emotion Statistics will be displayed here.";
     threads := [] |}.

(** The value a call returns: [None], or a statistics mapping. *)
Inductive PyValue : Type :=
| PyNone
| PyStats (stats : Dict.t spec_float).

(** [start_detection] *)
Definition start_detection (a : EmotionDetectionApp) : EmotionDetectionApp :=
  if negb (detection_active a) then
    {| detector := reset_emotion_history (detector a);
       detection_active := true;
       emotion_stats_label := emotion_stats_label a;
       threads := threads a ++ [AtWhile] |}
  else a.

(** The text that [stop_detection] builds from non-empty statistics. *)
Definition stats_text (stats : Dict.t spec_float) : string :=
  ("Emotion statistics:" ++ newline ++
   join newline
     (map (fun ep => fst ep ++ ": " ++ Float64.format_2f (snd ep) ++ "%")
          stats))%string.

(** [stop_detection]; it has no [return] statement. *)
Definition stop_detection (a : EmotionDetectionApp)
    : PyValue * EmotionDetectionApp :=
  if detection_active a then
    let stats := get_emotion_stats (detector a) in
    (PyNone,
     {| detector := detector a;
        detection_active := false;
        emotion_stats_label :=
          if Dict.truthy stats then stats_text stats
          else emotion_stats_label a;
        threads := threads a |})
  else (PyNone, a).

(** [on_closing]: the flag is lowered; the capture device and the
    window, which it releases, are not part of this state. *)
Definition on_closing (a : EmotionDetectionApp) : EmotionDetectionApp :=
  {| detector := detector a;
     detection_active := false;
     emotion_stats_label := emotion_stats_label a;
     threads := threads a |}.

(** Truth value of the [emotion] returned by [detect_emotion], which is
    [None] or a [str]: only a non-empty string is true. *)
Definition truthy_label (emotion : option string) : bool :=
  match emotion with
  | None => false
  | Some s => negb (String.eqb s EmptyString)
  end.

(** The [if emotion:] block that ends an iteration of [run_detection]:
    both deques are appended to, the second with [datetime.now()]. *)
Definition run_detection_record (emotion : option string) (now : Instant)
    (d : EmotionDetector) : EmotionDetector :=
  match emotion with
  | Some label =>
      if truthy_label emotion then
        {| emotion_history    := Deque.append label (emotion_history d);
           emotion_timestamps := Deque.append now (emotion_timestamps d) |}
      else d
  | None => d
  end.

(** What the world hands to a thread when it asks: the result of
    [cap.read()] and the clock. *)
Record World : Type := {
  cap_read : bool * Frame;
  now      : Instant
}.

(** One step of a [run_detection] thread that stands at [pc]. *)
Definition run_detection_step (E : Collaborators) (w : World) (pc : ThreadPc)
    (a : EmotionDetectionApp) : ThreadPc * EmotionDetectionApp :=
  match pc with
  | AtWhile =>
      if detection_active a then (AtRead, a) else (Finished, a)
  | AtRead =>
      let '(ret, frame) := cap_read w in
      if negb ret then (Finished, a) else (AtDetect frame, a)
  | AtDetect frame =>
      match snd (detect_emotion E frame) with
      | Return (face_box, emotion, confidence) => (AtRecord emotion, a)
      | Raise _ => (Finished, a)
      end
  | AtRecord emotion =>
      (AtWhile,
       {| detector := run_detection_record emotion (now w) (detector a);
          detection_active := detection_active a;
          emotion_stats_label := emotion_stats_label a;
          threads := threads a |})
  | Finished => (Finished, a)
  end.

(** [l[i] = x] on the thread table; nothing happens out of range. *)
Fixpoint set_nth {A : Type} (i : nat) (x : A) (l : list A) : list A :=
  match l, i with
  | [], _ => []
  | _ :: rest, 0 => x :: rest
  | y :: rest, S i' => y :: set_nth i' x rest
  end.

(** What can happen next: a callback on the main thread (the two
    buttons, the window being closed), or a step of one detection
    thread.  [update_frame], the other callback, calls
    [detect_emotion] and draws; it writes nothing of this state. *)
Inductive Action : Type :=
| Start
| Stop
| Close
| Thread (tid : nat) (w : World).

Definition step (E : Collaborators) (a : EmotionDetectionApp) (act : Action)
    : EmotionDetectionApp :=
  match act with
  | Start => start_detection a
  | Stop => snd (stop_detection a)
  | Close => on_closing a
  | Thread tid w =>
      match nth_error (threads a) tid with
      | Some pc =>
          let '(pc', a') := run_detection_step E w pc a in
          {| detector := detector a';
             detection_active := detection_active a';
             emotion_stats_label := emotion_stats_label a';
             threads := set_nth tid pc' (threads a') |}
      | None => a
      end
  end.

Definition run (E : Collaborators) (a : EmotionDetectionApp)
    (acts : list Action) : EmotionDetectionApp :=
  fold_left (step E) acts a.

(** The states the application can be in. *)
Definition reachable (E : Collaborators) (a : EmotionDetectionApp) : Prop :=
  exists acts, a = run E EmotionDetectionApp_init acts.

(** A thread is in flight when it has passed the test of the [while]
    and not yet come back to it. *)
Definition in_flight (pc : ThreadPc) : bool :=
  match pc with
  | AtRead | AtDetect _ | AtRecord _ => true
  | AtWhile | Finished => false
  end.

Definition quiescent (a : EmotionDetectionApp) : Prop :=
  forallb (fun pc => negb (in_flight pc)) (threads a) = true.

Definition is_start (act : Action) : bool :=
  match act with Start => true | _ => false end.

(* ===================================================================== *)
(** * Vocabulary of the statements *)
(* ===================================================================== *)

(** The last [n] elements of a list, in order. *)
Definition lastn {A : Type} (n : nat) (l : list A) : list A :=
  skipn (length l - n) l.

(** A run of record blocks, one per detection result. *)
Definition record_all (obs : list (option string * Instant))
    (d : EmotionDetector) : EmotionDetector :=
  fold_left (fun d o => run_detection_record (fst o) (snd o) d) obs d.

(** The labels and instants that a run of record blocks really appends. *)
Fixpoint recorded (obs : list (option string * Instant))
    : list (string * Instant) :=
  match obs with
  | [] => []
  | (Some label, now) :: rest =>
      if truthy_label (Some label) then (label, now) :: recorded rest
      else recorded rest
  | (None, _) :: rest => recorded rest
  end.

(** Both deques have the capacity given by [__init__]. *)
Definition capacity_100 (d : EmotionDetector) : Prop :=
  Deque.maxlen (emotion_history d) = Some 100 /\
  Deque.maxlen (emotion_timestamps d) = Some 100.

(** Sum of the rationals a list of floats stands for. *)
Definition sum_Q (l : list spec_float) : Q :=
  fold_right (fun f acc => (Float64.to_Q f + acc)%Q) 0%Q l.

Definition sum_Z (l : list Z) : Z := fold_right Z.add 0%Z l.

(** Rounding allowance for one percentage: [2^-45]. *)
Definition percentage_eps : Q := Qmake 1 (2 ^ 45).

(** The exact percentage [100 * count / total]. *)
Definition exact_percentage (count total : Z) : Q :=
  (100 * inject_Z count / inject_Z total)%Q.

(** Decidable check that [percentage count total] is a finite float
    within the allowance of the exact percentage. *)
Definition percentage_close (total count : nat) : bool :=
  let v := percentage (Z.of_nat count) (Z.of_nat total) in
  Float64.is_finite v &&
  Qle_bool (Qabs (Float64.to_Q v
                  - exact_percentage (Z.of_nat count) (Z.of_nat total)))
           percentage_eps.

Definition percentage_table : bool :=
  forallb (fun total => forallb (percentage_close total) (seq 1 total))
          (seq 1 100).

(** A step of the [try] body of [detect_emotion] raises [e] on
    [frame]: one constructor per step that can. *)
Inductive step_raises (E : Collaborators) (frame : Frame) (e : PyExc) : Prop :=
| raises_cvtColor :
    cvtColor E frame = Raise e ->
    step_raises E frame e
| raises_detectMultiScale gray :
    cvtColor E frame = Return gray ->
    detectMultiScale E gray = Raise e ->
    step_raises E frame e
| raises_analyze gray x y w h rest :
    cvtColor E frame = Return gray ->
    detectMultiScale E gray = Return ((x, y, w, h) :: rest) ->
    DeepFace_analyze E (crop frame x y w h) = Raise e ->
    step_raises E frame e
| raises_index gray x y w h rest :
    cvtColor E frame = Return gray ->
    detectMultiScale E gray = Return ((x, y, w, h) :: rest) ->
    DeepFace_analyze E (crop frame x y w h) = Return [] ->
    e = {| exc_class := ExceptionSubclass "IndexError";
           exc_str := "list index out of range" |} ->
    step_raises E frame e
| raises_key gray x y w h rest r others :
    cvtColor E frame = Return gray ->
    detectMultiScale E gray = Return ((x, y, w, h) :: rest) ->
    DeepFace_analyze E (crop frame x y w h) = Return (r :: others) ->
    key_emotion r = None ->
    e = {| exc_class := ExceptionSubclass "KeyError";
           exc_str := "'emotion'" |} ->
    step_raises E frame e.

(** The two deques of a detector run in parallel. *)
Definition parallel (d : EmotionDetector) : Prop :=
  capacity_100 d /\
  Deque.len (emotion_history d) = Deque.len (emotion_timestamps d) /\
  Deque.len (emotion_history d) <= 100.

(* ===================================================================== *)
(** * Concrete inputs *)
(* ===================================================================== *)

Module Sample.

Definition frame : Frame := repeat (repeat (10, 20, 30)%N 4) 4.

Definition gray_of (f : Frame) : Gray := map (map (fun p => fst (fst p))) f.

(** Collaborators that find the given faces and analyse with [an]. *)
Definition world (faces : list Box)
    (an : Frame -> result (list Analysis)) : Collaborators :=
  {| cvtColor := fun f => Return (gray_of f);
     detectMultiScale := fun _ => Return faces;
     DeepFace_analyze := an |}.

Definition box : Box := (1, 1, 2, 2).
Definition other_box : Box := (0, 0, 4, 4).

(** 99.5 and 0.5 *)
Definition score_high : spec_float := S754_finite false 199 (-1).
Definition score_low : spec_float := S754_finite false 1 (-1).

Definition happy : Analysis :=
  {| key_dominant_emotion := Some "happy"%string;
     key_emotion := Some [("happy"%string, score_high);
                          ("sad"%string, score_low)] |}.

(** A dominant label that the score map does not list. *)
Definition unlisted : Analysis :=
  {| key_dominant_emotion := Some "happy"%string;
     key_emotion := Some [("sad"%string, score_low)] |}.

(** No dominant label. *)
Definition unlabelled : Analysis :=
  {| key_dominant_emotion := None;
     key_emotion := Some [("sad"%string, score_low)] |}.

Definition sees (r : Analysis) : Collaborators :=
  world [box; other_box] (fun _ => Return [r]).

Definition sees_nothing : Collaborators :=
  world [] (fun _ => Return [happy]).

Definition model_error : PyExc :=
  {| exc_class := ExceptionSubclass "ValueError";
     exc_str := "model error" |}.

Definition interrupt : PyExc :=
  {| exc_class := KeyboardInterrupt; exc_str := "" |}.

Definition fails_with (e : PyExc) : Collaborators :=
  world [box] (fun _ => Raise e).

Definition tick : World := {| cap_read := (true, frame); now := 7%Z |}.

(** An active session whose history already holds one label. *)
Definition active_with_sad : EmotionDetectionApp :=
  {| detector :=
       run_detection_record (Some "sad"%string) 1%Z EmotionDetector_init;
     detection_active := true;
     emotion_stats_label := emotion_stats_label EmotionDetectionApp_init;
     threads := [AtRead] |}.

(** A stopped session that recorded happy, happy, sad. *)
Definition three_labels : EmotionDetectionApp :=
  {| detector :=
       record_all [(Some "happy"%string, 1%Z); (Some "happy"%string, 2%Z);
                   (Some "sad"%string, 3%Z)] EmotionDetector_init;
     detection_active := false;
     emotion_stats_label := emotion_stats_label EmotionDetectionApp_init;
     threads := [Finished] |}.

(** Start; the thread passes the test and reads a frame; stop is
    pressed while the frame is analysed; the analysis completes. *)
Definition stopped_in_flight : EmotionDetectionApp :=
  run (sees happy) EmotionDetectionApp_init
      [Start; Thread 0 tick; Thread 0 tick; Stop; Thread 0 tick].

End Sample.

(* ===================================================================== *)
(** * [update_frame] *)
(* ===================================================================== *)

(** The two drawing calls of OpenCV, on a frame and integer points. *)
Record Drawing : Type := {
  rectangle : Frame -> Z * Z -> Z * Z -> Frame;
  putText   : Frame -> string -> Z * Z -> Frame
}.

(** [cv2.flip(frame, 1)]: every row is reversed. *)
Definition flip_horizontal (frame : Frame) : Frame := map (@rev Pixel) frame.

(** [cv2.cvtColor(frame, cv2.COLOR_BGR2RGB)] *)
Definition BGR2RGB (frame : Frame) : Frame :=
  map (map (fun p : Pixel => let '(b, g, r) := p in (r, g, b))) frame.

(** What [update_frame] writes: the image of the camera label, and
    whether [root.after(10, self.update_frame)] was reached. *)
Record Screen : Type := {
  camera_frame : option Frame;
  rescheduled  : bool
}.

(** The box and the label drawn over a frame. *)
Definition draw_overlay (D : Drawing) (frame : Frame)
    (face_box : option Box) (emotion : option string) : Frame :=
  match face_box with
  | Some (x, y, w, h) =>
      let frame :=
        rectangle D frame (Z.of_nat x, Z.of_nat y)
                  (Z.of_nat x + Z.of_nat w, Z.of_nat y + Z.of_nat h)%Z in
      match emotion with
      | Some label =>
          if truthy_label emotion then
            putText D frame label (Z.of_nat x, Z.of_nat y - 10)%Z
          else frame
      | None => frame
      end
  | None => frame
  end.

(** [update_frame], given what [cap.read()] returns and the image shown
    so far: the lines printed, the screen afterwards, and the exception
    that left the call, if one did.  The flip, the drawing calls and
    the conversions to an image are taken to return; [detect_emotion]
    is the call that can raise. *)
Definition update_frame (E : Collaborators) (D : Drawing)
    (read : bool * Frame) (shown : option Frame)
    : list string * Screen * option PyExc :=
  let '(ret, frame) := read in
  if ret then
    let frame := flip_horizontal frame in
    match detect_emotion E frame with
    | (printed, Return (face_box, emotion, confidence)) =>
        let frame := draw_overlay D frame face_box emotion in
        let frame := BGR2RGB frame in
        (printed, {| camera_frame := Some frame; rescheduled := true |}, None)
    | (printed, Raise e) =>
        (printed, {| camera_frame := shown; rescheduled := false |}, Some e)
    end
  else ([], {| camera_frame := shown; rescheduled := true |}, None).

(* ===================================================================== *)
(** * Further vocabulary *)
(* ===================================================================== *)

(** The distinct elements of a list, each at its first occurrence. *)
Fixpoint first_occurrences (l : list string) : list string :=
  match l with
  | [] => []
  | x :: rest =>
      x :: filter (fun y => negb (String.eqb y x)) (first_occurrences rest)
  end.

Definition mem_label (x : string) (l : list string) : bool :=
  existsb (String.eqb x) l.

Definition spec_float_eqb (f g : spec_float) : bool :=
  match f, g with
  | S754_zero s, S754_zero s' => Bool.eqb s s'
  | S754_infinity s, S754_infinity s' => Bool.eqb s s'
  | S754_nan, S754_nan => true
  | S754_finite s m e, S754_finite s' m' e' =>
      Bool.eqb s s' && Pos.eqb m m' && Z.eqb e e'
  | _, _ => false
  end.

(** The float [100.0]. *)
Definition float_100 : spec_float := S754_finite false 7036874417766400 (-46).

(** [num / den] rounded to the nearest integer, ties to even, for a
    positive [den]. *)
Definition round_half_even (num den : Z) : Z :=
  let q := (num / den)%Z in
  let r := (num mod den)%Z in
  match (2 * r ?= den)%Z with
  | Lt => q
  | Gt => (q + 1)%Z
  | Eq => if Z.even q then q else (q + 1)%Z
  end.

(** A number of hundredths written with two decimals. *)
Definition two_decimals (n : Z) : string :=
  (Float64.decimal (n / 100) ++ "."
   ++ (if (n mod 100 <? 10)%Z then "0" else "")
   ++ Float64.decimal (n mod 100))%string.

(** Decidable checks over the percentages of a history of at most 100
    labels. *)
Definition percentage_shown_exactly (total count : nat) : bool :=
  String.eqb
    (Float64.format_2f (percentage (Z.of_nat count) (Z.of_nat total)))
    (two_decimals (round_half_even (10000 * Z.of_nat count) (Z.of_nat total))).

Definition percentage_in_range (total count : nat) : bool :=
  let v := Float64.to_Q (percentage (Z.of_nat count) (Z.of_nat total)) in
  Qle_bool v 100 && negb (Qle_bool v 0).

Definition percentage_whole (total : nat) : bool :=
  spec_float_eqb (percentage (Z.of_nat total) (Z.of_nat total)) float_100.

Definition over_pairs (check : nat -> nat -> bool) : bool :=
  forallb (fun total => forallb (check total) (seq 1 total)) (seq 1 100).

(** The state [a] with another thread table. *)
Definition with_threads (a : EmotionDetectionApp) (ts : list ThreadPc)
    : EmotionDetectionApp :=
  {| detector := detector a;
     detection_active := detection_active a;
     emotion_stats_label := emotion_stats_label a;
     threads := ts |}.

(** The state [a] with another detector. *)
Definition with_detector (a : EmotionDetectionApp) (d : EmotionDetector)
    : EmotionDetectionApp :=
  {| detector := d;
     detection_active := detection_active a;
     emotion_stats_label := emotion_stats_label a;
     threads := threads a |}.

(** The four steps of one full iteration of the loop of thread [tid]. *)
Definition iteration (tid : nat) (w : World) : list Action :=
  [Thread tid w; Thread tid w; Thread tid w; Thread tid w].

(** What an iteration records, when its read succeeds and its detection
    returns. *)
Definition observation (E : Collaborators) (w : World)
    : option (option string * Instant) :=
  let '(ret, frame) := cap_read w in
  if ret then
    match snd (detect_emotion E frame) with
    | Return (face_box, emotion, confidence) => Some (emotion, now w)
    | Raise _ => None
    end
  else None.

Definition observations (E : Collaborators) (ws : list World)
    : list (option string * Instant) :=
  flat_map (fun w => match observation E w with
                     | Some o => [o]
                     | None => []
                     end) ws.

(** How many of its own steps a thread takes at most before it has
    finished, once the flag is lowered for good. *)
Definition steps_to_finish (pc : ThreadPc) : nat :=
  match pc with
  | Finished => 0
  | AtWhile => 1
  | AtRecord _ => 2
  | AtDetect _ => 3
  | AtRead => 4
  end.

Definition is_step_of (tid : nat) (act : Action) : bool :=
  match act with
  | Thread tid' _ => Nat.eqb tid tid'
  | Start | Stop | Close => false
  end.

Definition steps_of (tid : nat) (acts : list Action) : nat :=
  length (filter (is_step_of tid) acts).

Definition no_start (acts : list Action) : bool :=
  forallb (fun act => negb (is_start act)) acts.

(** The number of iterations in flight. *)
Definition in_flight_count (a : EmotionDetectionApp) : nat :=
  length (filter in_flight (threads a)).

Definition is_stop (act : Action) : bool :=
  match act with Stop => true | Start | Close | Thread _ _ => false end.

(** More concrete inputs. *)
Module Fixture.

Definition plain : Drawing :=
  {| rectangle := fun f _ _ => f; putText := fun f _ _ => f |}.

Definition failed_read : World := {| cap_read := (false, []); now := 9%Z |}.

(** One label recorded, the session stopped. *)
Definition stopped_with_happy : EmotionDetectionApp :=
  run (Sample.sees Sample.happy) EmotionDetectionApp_init
      (Start :: iteration 0 Sample.tick ++ [Stop]).

(** A session that was started and stopped before its thread ran. *)
Definition stopped_untested : EmotionDetectionApp :=
  run (Sample.sees Sample.happy) EmotionDetectionApp_init [Start; Stop].

(** An active session whose thread is about to read. *)
Definition reading : EmotionDetectionApp :=
  run (Sample.sees Sample.happy) EmotionDetectionApp_init
      [Start; Thread 0 Sample.tick].

Definition happy_twice : EmotionDetector :=
  record_all [(Some "happy"%string, 1%Z); (Some "happy"%string, 2%Z)]
             EmotionDetector_init.

End Fixture.

(* ===================================================================== *)
(** * The face region, pixel by pixel *)
(* ===================================================================== *)

(** The pixel in row [i] and column [j] of an image, if it has one. *)
Definition pixel_at (image : Frame) (i j : nat) : option Pixel :=
  match nth_error image i with
  | Some row => nth_error row j
  | None => None
  end.

(** [image] is the part of [frame] that lies in the region
    [(x, y, w, h)]: its row [i], column [j] is the pixel of the frame
    in row [y + i], column [x + j], for [i < h] and [j < w], and it has
    nothing else. *)
Definition is_region (frame : Frame) (x y w h : nat) (image : Frame) : Prop :=
  length image = Nat.min h (length frame - y) /\
  forall i j,
    pixel_at image i j =
    if (i <? h) && (j <? w) then pixel_at frame (y + i) (x + j) else None.

(* ===================================================================== *)
(** * Whole operations, and the record block statement by statement *)
(* ===================================================================== *)

(** The two operations on the histories, each run as a whole. *)
Inductive Operation : Type :=
| ResetBoth
| RecordBlock (emotion : option string) (now : Instant).

Definition apply_operation (d : EmotionDetector) (op : Operation)
    : EmotionDetector :=
  match op with
  | ResetBoth => reset_emotion_history d
  | RecordBlock emotion now => run_detection_record emotion now d
  end.

Definition apply_operations (ops : list Operation) (d : EmotionDetector)
    : EmotionDetector :=
  fold_left apply_operation ops d.

(** [self.detector.emotion_history.append(emotion)] *)
Definition append_emotion (label : string) (d : EmotionDetector)
    : EmotionDetector :=
  {| emotion_history    := Deque.append label (emotion_history d);
     emotion_timestamps := emotion_timestamps d |}.

(** [self.detector.emotion_timestamps.append(datetime.now())] *)
Definition append_timestamp (now : Instant) (d : EmotionDetector)
    : EmotionDetector :=
  {| emotion_history    := emotion_history d;
     emotion_timestamps := Deque.append now (emotion_timestamps d) |}.

(** Where a thread stands when the two statements of the record block
    are told apart: at a place of [ThreadPc], or between the two
    appends. *)
Inductive FinePc : Type :=
| At (pc : ThreadPc)
| AtTimestamp.

(** One step of a thread, the record block taking two. *)
Definition fine_thread_step (E : Collaborators) (w : World) (pc : FinePc)
    (a : EmotionDetectionApp) : FinePc * EmotionDetectionApp :=
  match pc with
  | At (AtRecord emotion) =>
      match emotion with
      | Some label =>
          if truthy_label emotion then
            (AtTimestamp, with_detector a (append_emotion label (detector a)))
          else (At AtWhile, a)
      | None => (At AtWhile, a)
      end
  | AtTimestamp =>
      (At AtWhile, with_detector a (append_timestamp (now w) (detector a)))
  | At pc =>
      let '(pc', a') := run_detection_step E w pc a in (At pc', a')
  end.

(** The application with the places of its threads told apart in this
    way; the thread table of [main] is not used. *)
Record FineState : Type := {
  main : EmotionDetectionApp;
  pcs  : list FinePc
}.

Definition fine_init : FineState :=
  {| main := EmotionDetectionApp_init; pcs := [] |}.

Definition fine_step (E : Collaborators) (s : FineState) (act : Action)
    : FineState :=
  match act with
  | Start =>
      {| main := start_detection (main s);
         pcs := if detection_active (main s) then pcs s
                else pcs s ++ [At AtWhile] |}
  | Stop => {| main := snd (stop_detection (main s)); pcs := pcs s |}
  | Close => {| main := on_closing (main s); pcs := pcs s |}
  | Thread tid w =>
      match nth_error (pcs s) tid with
      | Some pc =>
          let '(pc', a') := fine_thread_step E w pc (main s) in
          {| main := a'; pcs := set_nth tid pc' (pcs s) |}
      | None => s
      end
  end.

Definition fine_run (E : Collaborators) (s : FineState) (acts : list Action)
    : FineState :=
  fold_left (fine_step E) acts s.

Definition fine_reachable (E : Collaborators) (s : FineState) : Prop :=
  exists acts, s = fine_run E fine_init acts.

(** Stop is pressed while a frame is analysed; the thread appends the
    label; start is pressed; the thread appends the timestamp. *)
Definition reset_between_appends : list Action :=
  [Start; Thread 0 Sample.tick; Thread 0 Sample.tick; Stop;
   Thread 0 Sample.tick; Thread 0 Sample.tick; Start; Thread 0 Sample.tick].

(* ===================================================================== *)
(** * Facts about the primitives *)
(* ===================================================================== *)

Section DequeFacts.
Context {A : Type}.
Implicit Types (d : Deque.t A) (l : list A) (x : A).

Lemma lastn_length n l : length (lastn n l) = Nat.min (length l) n.
Proof. unfold lastn. rewrite length_skipn. lia. Qed.

Lemma lastn_all n l : length l <= n -> lastn n l = l.
Proof.
  intros H. unfold lastn.
  replace (length l - n) with 0 by lia. reflexivity.
Qed.

Lemma tl_skipn k l : tl (skipn k l) = skipn (S k) l.
Proof.
  revert l. induction k as [|k IH]; intros [|y l]; simpl; auto.
Qed.

(** Appending on the right and trimming to [m] is one deque step on
    the trimmed list. *)
Lemma lastn_snoc m l x :
  lastn m (l ++ [x]) =
  let l' := lastn m l ++ [x] in if m <? length l' then tl l' else l'.
Proof.
  cbv zeta. rewrite length_app, lastn_length. simpl length.
  unfold lastn. rewrite length_app. simpl length.
  destruct (Nat.ltb_spec m (Nat.min (length l) m + 1)) as [Hlt|Hge].
  - assert (Hm : m <= length l) by lia.
    replace (length l + 1 - m) with (S (length l - m)) by lia.
    rewrite <- tl_skipn. rewrite skipn_app.
    replace (length l - m - length l) with 0 by lia. simpl skipn.
    reflexivity.
  - assert (Hm : length l < m) by lia.
    replace (length l + 1 - m) with 0 by lia.
    replace (length l - m) with 0 by lia. reflexivity.
Qed.

Lemma append_maxlen x d : Deque.maxlen (Deque.append x d) = Deque.maxlen d.
Proof. unfold Deque.append. destruct (Deque.maxlen d); reflexivity. Qed.

Lemma append_items_bounded m x d :
  Deque.maxlen d = Some m ->
  Deque.items (Deque.append x d) =
  let l := Deque.items d ++ [x] in if m <? length l then tl l else l.
Proof. intros H. unfold Deque.append. rewrite H. reflexivity. Qed.

(** A bounded deque that holds the last [m] items of a stream still
    does after one more [append]. *)
Lemma append_lastn m x d l :
  Deque.maxlen d = Some m ->
  Deque.items d = lastn m l ->
  Deque.items (Deque.append x d) = lastn m (l ++ [x]).
Proof.
  intros Hm Hi. rewrite (append_items_bounded m x d Hm), Hi.
  symmetry. apply lastn_snoc.
Qed.

End DequeFacts.

(* ===================================================================== *)
(** * The bounded history *)
(* ===================================================================== *)

Lemma reset_capacity d : capacity_100 d -> capacity_100 (reset_emotion_history d).
Proof. intros [H1 H2]. split; simpl; assumption. Qed.

Lemma record_capacity e now d :
  capacity_100 d -> capacity_100 (run_detection_record e now d).
Proof.
  intros [H1 H2]. unfold run_detection_record.
  destruct e as [label|]; [|split; assumption].
  destruct (truthy_label (Some label)); [|split; assumption].
  split; simpl; rewrite append_maxlen; assumption.
Qed.

Lemma record_all_capacity obs d :
  capacity_100 d -> capacity_100 (record_all obs d).
Proof.
  revert d. induction obs as [|o obs IH]; intros d H; simpl; [exact H|].
  apply IH, record_capacity, H.
Qed.

(** The label history after a run of record blocks is the trimmed
    concatenation of what it held and what was recorded. *)
Lemma record_all_history obs : forall d l,
  Deque.maxlen (emotion_history d) = Some 100 ->
  Deque.items (emotion_history d) = lastn 100 l ->
  Deque.items (emotion_history (record_all obs d)) =
  lastn 100 (l ++ map fst (recorded obs)).
Proof.
  induction obs as [|[e now] obs IH]; intros d l Hm Hi; simpl.
  - rewrite app_nil_r. exact Hi.
  - destruct e as [label|]; simpl; [|apply IH; assumption].
    destruct (negb (label =? "")%string); [|apply IH; assumption].
    simpl. replace (l ++ label :: map fst (recorded obs))
      with ((l ++ [label]) ++ map fst (recorded obs))
      by (rewrite <- app_assoc; reflexivity).
    apply IH; simpl.
    + rewrite append_maxlen. exact Hm.
    + apply append_lastn; assumption.
Qed.

(** One record block on a bounded history: below capacity the label is
    added on the right, at capacity the leftmost label goes as well. *)
Lemma record_history_step label now d :
  Deque.maxlen (emotion_history d) = Some 100 ->
  Deque.len (emotion_history d) <= 100 ->
  truthy_label (Some label) = true ->
  Deque.items (emotion_history (run_detection_record (Some label) now d)) =
  if Deque.len (emotion_history d) =? 100
  then tl (Deque.items (emotion_history d)) ++ [label]
  else Deque.items (emotion_history d) ++ [label].
Proof.
  intros Hm Hlen Ht. unfold run_detection_record. rewrite Ht. simpl.
  rewrite (append_items_bounded 100 _ _ Hm). cbv zeta.
  rewrite length_app. simpl length. unfold Deque.len in *.
  destruct (Deque.items (emotion_history d)) as [|y l] eqn:E.
  - reflexivity.
  - simpl length in *.
    destruct (Nat.eqb_spec (S (length l)) 100) as [H100|Hne].
    + replace (100 <? S (length l) + 1) with true
        by (symmetry; apply Nat.ltb_lt; lia).
      reflexivity.
    + replace (100 <? S (length l) + 1) with false
        by (symmetry; apply Nat.ltb_ge; lia).
      reflexivity.
Qed.

(** C1. After [reset_emotion_history] (what [start_detection] runs),
    any run of record blocks leaves a history whose length is
    [min (number recorded) 100], that holds the most recent (at most
    100) recorded labels in arrival order; and one more record at full
    capacity evicts exactly the oldest label. *)
Theorem history_bounded_oldest_evicted (d0 : EmotionDetector)
    (obs : list (option string * Instant)) :
  capacity_100 d0 ->
  let d := record_all obs (reset_emotion_history d0) in
  let h := Deque.items (emotion_history d) in
  length h = Nat.min (length (recorded obs)) 100 /\
  length h <= 100 /\
  h = lastn 100 (map fst (recorded obs)) /\
  forall label now, truthy_label (Some label) = true ->
    Deque.items (emotion_history (run_detection_record (Some label) now d)) =
    if length h =? 100 then tl h ++ [label] else h ++ [label].
Proof.
  intros Hcap d h.
  assert (Hh : h = lastn 100 (map fst (recorded obs))).
  { subst h d.
    apply (record_all_history obs (reset_emotion_history d0) []).
    - simpl. apply Hcap.
    - reflexivity. }
  assert (Hlen : length h = Nat.min (length (recorded obs)) 100).
  { rewrite Hh, lastn_length, length_map. reflexivity. }
  split; [exact Hlen|]. split; [lia|]. split; [exact Hh|].
  intros label now Ht.
  apply (record_history_step label now d).
  - apply record_all_capacity, reset_capacity, Hcap.
  - unfold Deque.len. fold h. lia.
  - exact Ht.
Qed.

Lemma history_bounded_oldest_evicted_witness :
  capacity_100 EmotionDetector_init /\
  let obs := [(Some "happy"%string, 1%Z); (None, 2%Z); (Some "sad"%string, 3%Z)] in
  let d := record_all obs (reset_emotion_history EmotionDetector_init) in
  let h := Deque.items (emotion_history d) in
  length h = Nat.min (length (recorded obs)) 100 /\
  length h <= 100 /\
  h = lastn 100 (map fst (recorded obs)) /\
  forall label now, truthy_label (Some label) = true ->
    Deque.items (emotion_history (run_detection_record (Some label) now d)) =
    if length h =? 100 then tl h ++ [label] else h ++ [label].
Proof.
  split.
  - split; reflexivity.
  - apply (history_bounded_oldest_evicted EmotionDetector_init).
    split; reflexivity.
Defined.

(* ===================================================================== *)
(** * The frequency distribution *)
(* ===================================================================== *)

Section DictFacts.
Context {V : Type}.
Implicit Types (d : Dict.t V) (k : string) (v : V).

Lemma lookup_set_eq k v d : Dict.lookup k (Dict.set k v d) = Some v.
Proof.
  induction d as [|[k' v'] d IH]; simpl.
  - rewrite String.eqb_refl. reflexivity.
  - destruct (String.eqb k k') eqn:E; simpl; rewrite E; auto.
Qed.

Lemma lookup_set_ne k k' v d :
  k <> k' -> Dict.lookup k' (Dict.set k v d) = Dict.lookup k' d.
Proof.
  intros Hne. induction d as [|[k0 v0] d IH]; simpl.
  - destruct (String.eqb_spec k' k); congruence.
  - destruct (String.eqb_spec k k0) as [->|Hk]; simpl.
    + destruct (String.eqb_spec k' k0); congruence.
    + rewrite IH. reflexivity.
Qed.

Lemma keys_set k v d x :
  In x (Dict.keys (Dict.set k v d)) <-> x = k \/ In x (Dict.keys d).
Proof.
  unfold Dict.keys. induction d as [|[k0 v0] d IH]; simpl.
  - intuition.
  - destruct (String.eqb_spec k k0) as [->|Hk]; simpl.
    + intuition.
    + rewrite IH. intuition.
Qed.

Lemma NoDup_keys_set k v d :
  NoDup (Dict.keys d) -> NoDup (Dict.keys (Dict.set k v d)).
Proof.
  unfold Dict.keys. induction d as [|[k0 v0] d IH]; simpl; intros H.
  - constructor; [intros []|constructor].
  - inversion H as [|? ? Hnin Hnd]; subst.
    destruct (String.eqb_spec k k0) as [->|Hk]; simpl.
    + constructor; assumption.
    + constructor; [|apply IH, Hnd].
      intros Hin. apply (keys_set k v d k0) in Hin.
      destruct Hin as [->|Hin]; [apply Hk; reflexivity|apply Hnin, Hin].
Qed.

Lemma lookup_keys k d : In k (Dict.keys d) <-> Dict.lookup k d <> None.
Proof.
  unfold Dict.keys. induction d as [|[k0 v0] d IH]; simpl.
  - intuition.
  - destruct (String.eqb_spec k k0) as [->|Hk].
    + split; [discriminate|auto].
    + rewrite <- IH. split; [intros [E|H]; [congruence|exact H]|auto].
Qed.

Lemma lookup_map {W : Type} (f : V -> W) k d :
  Dict.lookup k (map (fun kv => (fst kv, f (snd kv))) d) =
  option_map f (Dict.lookup k d).
Proof.
  induction d as [|[k0 v0] d IH]; simpl; [reflexivity|].
  destruct (String.eqb k k0); [reflexivity|exact IH].
Qed.

Lemma lookup_In k v d : Dict.lookup k d = Some v -> In v (Dict.values d).
Proof.
  unfold Dict.values. induction d as [|[k0 v0] d IH]; simpl; [discriminate|].
  destruct (String.eqb k k0); [intros [= ->]; auto|auto].
Qed.

End DictFacts.

Lemma sum_set k v (d : Dict.t Z) :
  sum_Z (Dict.values (Dict.set k v d)) =
  (sum_Z (Dict.values d) - Dict.get k 0 d + v)%Z.
Proof.
  unfold Dict.get, Dict.values.
  induction d as [|[k0 v0] d IH]; simpl; [lia|].
  destruct (String.eqb k k0); simpl; [lia|]. rewrite IH. lia.
Qed.

Lemma values_set_Forall (P : Z -> Prop) k v (d : Dict.t Z) :
  P v -> Forall P (Dict.values d) -> Forall P (Dict.values (Dict.set k v d)).
Proof.
  unfold Dict.values. intros Hv.
  induction d as [|[k0 v0] d IH]; simpl; intros H.
  - constructor; [exact Hv|constructor].
  - inversion H; subst. destruct (String.eqb k k0); simpl.
    + constructor; assumption.
    + constructor; [assumption|apply IH; assumption].
Qed.

Lemma get_nonneg k (d : Dict.t Z) :
  Forall (fun c => 1 <= c)%Z (Dict.values d) -> (0 <= Dict.get k 0 d)%Z.
Proof.
  intros H. unfold Dict.get. destruct (Dict.lookup k d) as [v|] eqn:E; [|lia].
  apply lookup_In in E. rewrite Forall_forall in H. specialize (H v E). lia.
Qed.

(** The counting loop started from any table [acc]. *)
Lemma count_loop_spec history : forall acc : Dict.t Z,
  let r := fold_left
    (fun emotion_counts emotion =>
       Dict.set emotion (Dict.get emotion 0%Z emotion_counts + 1)%Z
                emotion_counts) history acc in
  NoDup (Dict.keys acc) ->
  Forall (fun c => 1 <= c)%Z (Dict.values acc) ->
  NoDup (Dict.keys r) /\
  Forall (fun c => 1 <= c)%Z (Dict.values r) /\
  (forall l, In l (Dict.keys r) <-> In l (Dict.keys acc) \/ In l history) /\
  (forall l, Dict.get l 0%Z r =
             (Dict.get l 0 acc + Z.of_nat (count_occ string_dec history l))%Z) /\
  sum_Z (Dict.values r) =
  (sum_Z (Dict.values acc) + Z.of_nat (length history))%Z.
Proof.
  induction history as [|e history IH]; intros acc r Hnd Hpos.
  - subst r. simpl. repeat split; auto; try tauto; try lia.
  - subst r. simpl fold_left.
    set (acc' := Dict.set e (Dict.get e 0%Z acc + 1)%Z acc).
    assert (Hnd' : NoDup (Dict.keys acc')) by (apply NoDup_keys_set, Hnd).
    assert (Hpos' : Forall (fun c => 1 <= c)%Z (Dict.values acc')).
    { apply values_set_Forall; [|exact Hpos].
      pose proof (get_nonneg e acc Hpos). lia. }
    destruct (IH acc' Hnd' Hpos') as (H1 & H2 & H3 & H4 & H5).
    split; [exact H1|]. split; [exact H2|]. split; [|split].
    + intros l. rewrite H3. unfold acc'. rewrite keys_set. simpl.
      intuition congruence.
    + intros l. rewrite H4. unfold acc'. simpl count_occ.
      destruct (string_dec e l) as [->|Hne].
      * unfold Dict.get at 1. rewrite lookup_set_eq. lia.
      * unfold Dict.get at 1. rewrite lookup_set_ne by exact Hne.
        fold (Dict.get l 0%Z acc). lia.
    + rewrite H5. unfold acc'. rewrite sum_set.
      simpl length. lia.
Qed.

Lemma count_emotions_spec history :
  let c := count_emotions history in
  NoDup (Dict.keys c) /\
  Forall (fun n => 1 <= n)%Z (Dict.values c) /\
  (forall l, In l (Dict.keys c) <-> In l history) /\
  (forall l, In l history ->
     Dict.lookup l c = Some (Z.of_nat (count_occ string_dec history l))) /\
  sum_Z (Dict.values c) = Z.of_nat (length history).
Proof.
  destruct (count_loop_spec history Dict.empty) as (H1 & H2 & H3 & H4 & H5).
  { constructor. } { constructor. }
  fold (count_emotions history) in *. cbv zeta.
  split; [exact H1|]. split; [exact H2|]. split; [|split].
  - intros l. rewrite H3. simpl. tauto.
  - intros l Hin. specialize (H4 l). unfold Dict.get in H4. simpl in H4.
    destruct (Dict.lookup l (count_emotions history)) as [v|] eqn:E.
    + rewrite H4. reflexivity.
    + exfalso. assert (Hk : In l (Dict.keys (count_emotions history)))
        by (apply H3; right; exact Hin).
      apply lookup_keys in Hk. apply Hk, E.
  - rewrite H5. simpl. reflexivity.
Qed.

(** Every percentage of a history of at most 100 labels is a finite
    float within [2^-45] of the exact one: checked on all 5050 pairs. *)
Lemma percentage_table_ok : percentage_table = true.
Proof. vm_compute. reflexivity. Qed.

Lemma percentage_close_ok (count total : Z) :
  (1 <= count <= total)%Z -> (total <= 100)%Z ->
  Float64.is_finite (percentage count total) = true /\
  (Qabs (Float64.to_Q (percentage count total) - exact_percentage count total)
   <= percentage_eps)%Q.
Proof.
  intros Hc Ht.
  pose proof percentage_table_ok as T. unfold percentage_table in T.
  rewrite forallb_forall in T.
  specialize (T (Z.to_nat total)).
  rewrite forallb_forall in T.
  assert (Hin1 : In (Z.to_nat total) (seq 1 100)) by (apply in_seq; lia).
  assert (Hin2 : In (Z.to_nat count) (seq 1 (Z.to_nat total)))
    by (apply in_seq; lia).
  specialize (T Hin1 _ Hin2). unfold percentage_close in T.
  rewrite !Z2Nat.id in T by lia.
  apply andb_prop in T. destruct T as [T1 T2].
  split; [exact T1|]. apply Qle_bool_iff. exact T2.
Qed.

Lemma exact_percentage_plus (a b total : Z) :
  (exact_percentage (a + b) total ==
   exact_percentage a total + exact_percentage b total)%Q.
Proof.
  unfold exact_percentage. rewrite inject_Z_plus. unfold Qdiv. ring.
Qed.

Lemma exact_percentage_total (total : Z) :
  (0 < total)%Z -> (exact_percentage total total == 100)%Q.
Proof.
  intros H. unfold exact_percentage. field.
  intros E. assert (E' : (inject_Z total == inject_Z 0)%Q) by exact E.
  rewrite inject_Z_injective in E'. lia.
Qed.

(** The percentages of a table of counts add up to the exact percentage
    of the sum of the counts, up to one allowance per entry. *)
Lemma sum_percentages (total : Z) (counts : Dict.t Z) :
  (total <= 100)%Z ->
  Forall (fun c => 1 <= c <= total)%Z (Dict.values counts) ->
  (Qabs (sum_Q (Dict.values
                  (map (fun ec => (fst ec, percentage (snd ec) total)) counts))
         - exact_percentage (sum_Z (Dict.values counts)) total)
   <= inject_Z (Z.of_nat (length counts)) * percentage_eps)%Q.
Proof.
  intros Ht. unfold Dict.values.
  induction counts as [|[k c] counts IH]; intros H.
  - simpl. unfold exact_percentage, percentage_eps. vm_compute. discriminate.
  - inversion H as [|? ? Hc Hrest]; subst. specialize (IH Hrest).
    simpl map. simpl sum_Q. simpl sum_Z. simpl length.
    rewrite exact_percentage_plus.
    destruct (percentage_close_ok c total Hc Ht) as [_ Hclose].
    rewrite Nat2Z.inj_succ. unfold Z.succ. rewrite inject_Z_plus.
    apply Qabs_Qle_condition in Hclose. apply Qabs_Qle_condition in IH.
    apply Qabs_Qle_condition.
    change (inject_Z 1) with 1%Q.
    destruct Hclose as [Hc1 Hc2]. destruct IH as [I1 I2].
    split; lra.
Qed.

Lemma Forall_le_sum (l : list Z) :
  Forall (fun c => 1 <= c)%Z l ->
  Forall (fun c => 1 <= c <= sum_Z l)%Z l /\ (Z.of_nat (length l) <= sum_Z l)%Z.
Proof.
  induction l as [|c l IH]; intros H.
  - split; [constructor|simpl; lia].
  - inversion H as [|? ? Hc Hl]; subst. destruct (IH Hl) as [IH1 IH2].
    simpl sum_Z. simpl length. split; [|lia].
    constructor; [lia|].
    eapply Forall_impl; [|exact IH1]. simpl. intros a Ha. lia.
Qed.

(** 105 labels in one session: the history keeps the last 100, the
    sixth first. *)
Example history_after_105 :
  let label i := String (ascii_of_nat (32 + i)) "" in
  let obs := map (fun i => (Some (label i), Z.of_nat i)) (seq 1 105) in
  Deque.items (emotion_history (record_all obs EmotionDetector_init)) =
  map label (seq 6 100).
Proof. vm_compute. reflexivity. Qed.

Lemma keys_map_values {V W : Type} (f : V -> W) (d : Dict.t V) :
  Dict.keys (map (fun kv => (fst kv, f (snd kv))) d) = Dict.keys d.
Proof.
  unfold Dict.keys. rewrite map_map. simpl. reflexivity.
Qed.

Lemma get_emotion_stats_nonempty d :
  Deque.items (emotion_history d) <> [] ->
  get_emotion_stats d =
  map (fun ec => (fst ec,
                  percentage (snd ec)
                    (Z.of_nat (length (Deque.items (emotion_history d))))))
      (count_emotions (Deque.items (emotion_history d))).
Proof.
  intros H. unfold get_emotion_stats, Deque.truthy, Deque.len.
  destruct (Deque.items (emotion_history d)); [contradiction|reflexivity].
Qed.

(** C2. [get_emotion_stats] only reads the history, whatever the
    session flag of the application that holds the detector.  On an
    empty history it returns the empty mapping.  Otherwise its keys
    are exactly the distinct labels of the history and the value of a
    label is the float [count / total * 100], a finite number within
    [2^-45] of [100 * count(label) / |history|]; the values add up to
    100 within [1e-6]. *)
Theorem get_emotion_stats_distribution (a : EmotionDetectionApp) :
  let d := detector a in
  let h := Deque.items (emotion_history d) in
  let stats := get_emotion_stats d in
  Deque.len (emotion_history d) <= 100 ->
  (h = [] -> stats = Dict.empty) /\
  (h <> [] ->
   NoDup (Dict.keys stats) /\
   (forall label, In label (Dict.keys stats) <-> In label h) /\
   (forall label, In label h ->
      let count := Z.of_nat (count_occ string_dec h label) in
      let total := Z.of_nat (length h) in
      Dict.lookup label stats = Some (percentage count total) /\
      Float64.is_finite (percentage count total) = true /\
      (Qabs (Float64.to_Q (percentage count total)
             - 100 * inject_Z count / inject_Z total) <= percentage_eps)%Q) /\
   (Qabs (sum_Q (Dict.values stats) - 100) <= 1 # 1000000)%Q).
Proof.
  intros d h stats Hlen. split.
  - intros Hh. subst stats. unfold get_emotion_stats, Deque.truthy.
    fold h. rewrite Hh. reflexivity.
  - intros Hh. subst stats. rewrite (get_emotion_stats_nonempty d Hh). fold h.
    destruct (count_emotions_spec h) as (Hnd & Hpos & Hkeys & Hlook & Hsum).
    assert (Hpos_len : (0 < Z.of_nat (length h))%Z).
    { destruct h; [contradiction|simpl; lia]. }
    assert (H100 : (Z.of_nat (length h) <= 100)%Z).
    { unfold Deque.len in Hlen. fold h in Hlen. lia. }
    pose proof (keys_map_values
                  (fun c => percentage c (Z.of_nat (length h)))
                  (count_emotions h)) as Hk0. simpl in Hk0.
    split; [|split; [|split]].
    + rewrite Hk0. exact Hnd.
    + intros label. rewrite Hk0. apply Hkeys.
    + intros label Hin count total.
      rewrite (lookup_map (fun c => percentage c (Z.of_nat (length h)))),
        (Hlook label Hin). simpl. split; [reflexivity|].
      apply percentage_close_ok; [|exact H100].
      subst count.
      assert (0 < count_occ string_dec h label)
        by (apply count_occ_In; exact Hin).
      pose proof (count_occ_bound string_dec label h). lia.
    + destruct (Forall_le_sum _ Hpos) as [Hbnd Hk].
      rewrite Hsum in Hbnd, Hk.
      pose proof (sum_percentages (Z.of_nat (length h))
                    (count_emotions h) H100 Hbnd) as HS.
      rewrite Hsum in HS.
      rewrite (exact_percentage_total _ Hpos_len) in HS.
      unfold Dict.values in Hk. rewrite length_map in Hk.
      eapply Qle_trans; [exact HS|].
      assert (Hk100 : (inject_Z (Z.of_nat (length (count_emotions h)))
                       <= inject_Z 100)%Q).
      { rewrite <- Zle_Qle. lia. }
      unfold percentage_eps.
      change (inject_Z 100) with 100%Q in Hk100.
      set (k := inject_Z (Z.of_nat (length (count_emotions h)))) in *.
      assert (E : (100 * (1 # 2 ^ 45) <= 1 # 1000000)%Q)
        by (vm_compute; discriminate).
      assert (P : (0 <= 1 # 2 ^ 45)%Q) by (vm_compute; discriminate).
      nra.
Qed.

Lemma get_emotion_stats_distribution_witness :
  Deque.len (emotion_history (detector Sample.three_labels)) <= 100 /\
  Dict.lookup "happy"%string (get_emotion_stats (detector Sample.three_labels))
  = Some (percentage 2 3) /\
  (Qabs (sum_Q (Dict.values (get_emotion_stats (detector Sample.three_labels)))
         - 100) <= 1 # 1000000)%Q.
Proof.
  assert (Hlen : Deque.len (emotion_history (detector Sample.three_labels))
                 <= 100) by (vm_compute; lia).
  split; [exact Hlen|].
  destruct (get_emotion_stats_distribution Sample.three_labels Hlen)
    as [_ Hne].
  destruct Hne as (_ & _ & Hval & Hsum); [discriminate|].
  split; [|exact Hsum].
  apply (Hval "happy"%string). left. reflexivity.
Defined.

(** The distribution of happy, happy, sad, as Python prints it. *)
Example stats_text_three_labels :
  stats_text (get_emotion_stats (detector Sample.three_labels)) =
  ("Emotion statistics:" ++ newline ++ "happy: 66.67%" ++ newline
   ++ "sad: 33.33%")%string.
Proof. vm_compute. reflexivity. Qed.

(* ===================================================================== *)
(** * The detector adapter *)
(* ===================================================================== *)

(** Unfolding the [try] body once the frame is converted and the faces
    are known. *)
Lemma detect_emotion_try_no_face E frame gray :
  cvtColor E frame = Return gray ->
  detectMultiScale E gray = Return [] ->
  detect_emotion_try E frame = Return nothing_detected.
Proof.
  intros Hg Hf. unfold detect_emotion_try. rewrite Hg. simpl.
  rewrite Hf. reflexivity.
Qed.

Lemma detect_emotion_try_face E frame gray x y w h rest :
  cvtColor E frame = Return gray ->
  detectMultiScale E gray = Return ((x, y, w, h) :: rest) ->
  detect_emotion_try E frame =
  (results <- DeepFace_analyze E (crop frame x y w h) ;;
   result <- index0 results ;;
   scores <- getitem_emotion result ;;
   Return (Some (x, y, w, h), key_dominant_emotion result,
           scores_get (key_dominant_emotion result) scores)).
Proof.
  intros Hg Hf. unfold detect_emotion_try. rewrite Hg. simpl.
  rewrite Hf. reflexivity.
Qed.

(** The [try] body raises exactly when one of its steps does. *)
Lemma detect_emotion_try_raises E frame e :
  detect_emotion_try E frame = Raise e <-> step_raises E frame e.
Proof.
  split.
  - intros H.
    destruct (cvtColor E frame) as [gray|e0] eqn:Hg.
    2:{ unfold detect_emotion_try in H. rewrite Hg in H. simpl in H.
        injection H as ->. apply raises_cvtColor. exact Hg. }
    destruct (detectMultiScale E gray) as [faces|e0] eqn:Hf.
    2:{ unfold detect_emotion_try in H. rewrite Hg in H. simpl in H.
        rewrite Hf in H. simpl in H. injection H as ->.
        eapply raises_detectMultiScale; eassumption. }
    destruct faces as [|[[[x y] w] h] rest].
    { rewrite (detect_emotion_try_no_face E frame gray Hg Hf) in H.
      discriminate. }
    rewrite (detect_emotion_try_face E frame gray x y w h rest Hg Hf) in H.
    destruct (DeepFace_analyze E (crop frame x y w h)) as [results|e0] eqn:Ha.
    2:{ simpl in H. injection H as ->. eapply raises_analyze; eassumption. }
    destruct results as [|r others].
    { simpl in H. injection H as <-. eapply raises_index; eauto. }
    simpl in H. unfold getitem_emotion in H.
    destruct (key_emotion r) as [scores|] eqn:Hk; simpl in H.
    + discriminate.
    + injection H as <-. eapply raises_key; eauto.
  - intros [Hg|gray Hg Hf|gray x y w h rest Hg Hf Ha
            |gray x y w h rest Hg Hf Ha ->
            |gray x y w h rest r others Hg Hf Ha Hk ->].
    + unfold detect_emotion_try. rewrite Hg. reflexivity.
    + unfold detect_emotion_try. rewrite Hg. simpl. rewrite Hf. reflexivity.
    + rewrite (detect_emotion_try_face E frame gray x y w h rest Hg Hf), Ha.
      reflexivity.
    + rewrite (detect_emotion_try_face E frame gray x y w h rest Hg Hf), Ha.
      reflexivity.
    + rewrite (detect_emotion_try_face E frame gray x y w h rest Hg Hf), Ha.
      simpl. unfold getitem_emotion. rewrite Hk. reflexivity.
Qed.

(** The exceptions the adapter raises itself are [Exception]s. *)
Lemma detect_emotion_outcome E frame :
  (exists r, detect_emotion_try E frame = Return r /\
             detect_emotion E frame = ([], Return r)) \/
  (exists e, detect_emotion_try E frame = Raise e /\
             isinstance_Exception e = true /\
             detect_emotion E frame =
             (["Error in detecting emotion: " ++ exc_str e]%string,
              Return nothing_detected)) \/
  (exists e, detect_emotion_try E frame = Raise e /\
             isinstance_Exception e = false /\
             detect_emotion E frame = ([], Raise e)).
Proof.
  unfold detect_emotion.
  destruct (detect_emotion_try E frame) as [r|e].
  - left. exists r. split; reflexivity.
  - destruct (isinstance_Exception e) eqn:He.
    + right; left. exists e. repeat split; assumption.
    + right; right. exists e. repeat split; assumption.
Qed.

(** C3, as the claim states it, fails: a [KeyboardInterrupt] raised
    while the crop is analysed leaves [detect_emotion] as it came. *)
Lemma detect_emotion_propagates_interrupt :
  ~ (forall E frame, exists r, snd (detect_emotion E frame) = Return r).
Proof.
  intros H.
  destruct (H (Sample.fails_with Sample.interrupt) Sample.frame) as [r Hr].
  vm_compute in Hr. discriminate.
Qed.

(** C3, amended.  On a frame with no face the adapter returns
    [(None, None, 0)].  When a step of detection or classification
    raises an instance of [Exception], the handler prints one line and
    the adapter returns [(None, None, 0)].  The adapter lets an
    exception through exactly when a step raised it and it is not an
    instance of [Exception]. *)
Theorem detect_emotion_fail_open (E : Collaborators) (frame : Frame) :
  (forall gray,
     cvtColor E frame = Return gray ->
     detectMultiScale E gray = Return [] ->
     detect_emotion E frame = ([], Return nothing_detected)) /\
  (forall e,
     step_raises E frame e ->
     isinstance_Exception e = true ->
     detect_emotion E frame =
     (["Error in detecting emotion: " ++ exc_str e]%string,
      Return nothing_detected)) /\
  (forall e,
     snd (detect_emotion E frame) = Raise e ->
     step_raises E frame e /\ isinstance_Exception e = false) /\
  (forall e,
     step_raises E frame e ->
     isinstance_Exception e = false ->
     detect_emotion E frame = ([], Raise e)) /\
  ((forall e, step_raises E frame e -> isinstance_Exception e = true) ->
   exists r, snd (detect_emotion E frame) = Return r).
Proof.
  split; [|split; [|split; [|split]]].
  - intros gray Hg Hf. unfold detect_emotion.
    rewrite (detect_emotion_try_no_face E frame gray Hg Hf). reflexivity.
  - intros e Hs He. apply detect_emotion_try_raises in Hs.
    unfold detect_emotion. rewrite Hs, He. reflexivity.
  - intros e H.
    destruct (detect_emotion_outcome E frame)
      as [(r & _ & Hd)|[(e' & _ & _ & Hd)|(e' & Ht & He & Hd)]];
      rewrite Hd in H; simpl in H; try discriminate.
    injection H as <-. split; [apply detect_emotion_try_raises, Ht|exact He].
  - intros e Hs He. apply detect_emotion_try_raises in Hs.
    unfold detect_emotion. rewrite Hs, He. reflexivity.
  - intros Hall.
    destruct (detect_emotion_outcome E frame)
      as [(r & _ & Hd)|[(e' & _ & _ & Hd)|(e' & Ht & He & Hd)]];
      rewrite Hd; simpl; eauto.
    apply detect_emotion_try_raises, Hall in Ht. congruence.
Qed.

Lemma detect_emotion_fail_open_witness :
  step_raises (Sample.fails_with Sample.model_error) Sample.frame
              Sample.model_error /\
  isinstance_Exception Sample.model_error = true /\
  detect_emotion (Sample.fails_with Sample.model_error) Sample.frame =
  (["Error in detecting emotion: model error"%string],
   Return nothing_detected) /\
  detect_emotion Sample.sees_nothing Sample.frame =
  ([], Return nothing_detected).
Proof.
  assert (Hs : step_raises (Sample.fails_with Sample.model_error)
                 Sample.frame Sample.model_error).
  { eapply raises_analyze with (gray := Sample.gray_of Sample.frame);
      reflexivity. }
  split; [exact Hs|]. split; [reflexivity|]. split.
  - apply (proj1 (proj2 (detect_emotion_fail_open
                           (Sample.fails_with Sample.model_error)
                           Sample.frame))
             Sample.model_error Hs).
    reflexivity.
  - apply (proj1 (detect_emotion_fail_open Sample.sees_nothing Sample.frame)
             (Sample.gray_of Sample.frame)); reflexivity.
Defined.

(** With a face found and the crop analysed, what the adapter returns. *)
Lemma detect_emotion_analysed E frame gray x y w h rest r others scores :
  cvtColor E frame = Return gray ->
  detectMultiScale E gray = Return ((x, y, w, h) :: rest) ->
  DeepFace_analyze E (crop frame x y w h) = Return (r :: others) ->
  key_emotion r = Some scores ->
  detect_emotion E frame =
  ([], Return (Some (x, y, w, h), key_dominant_emotion r,
               scores_get (key_dominant_emotion r) scores)).
Proof.
  intros Hg Hf Ha Hk. unfold detect_emotion.
  rewrite (detect_emotion_try_face E frame gray x y w h rest Hg Hf), Ha.
  simpl. unfold getitem_emotion. rewrite Hk. reflexivity.
Qed.

(** The image that [crop] returns is the region, pixel by pixel. *)
Lemma nth_error_slice {A : Type} (a n i : nat) (l : list A) :
  nth_error (slice a (a + n) l) i =
  if i <? n then nth_error l (a + i) else None.
Proof.
  unfold slice. replace (a + n - a) with n by lia.
  rewrite nth_error_firstn, nth_error_skipn. reflexivity.
Qed.

Lemma pixel_at_crop frame x y w h i j :
  pixel_at (crop frame x y w h) i j =
  if (i <? h) && (j <? w) then pixel_at frame (y + i) (x + j) else None.
Proof.
  unfold pixel_at, crop. rewrite nth_error_map, nth_error_slice.
  destruct (i <? h); simpl; [|reflexivity].
  destruct (nth_error frame (y + i)) as [row|]; simpl.
  - apply nth_error_slice.
  - destruct (j <? w); reflexivity.
Qed.

Lemma crop_is_region frame x y w h :
  is_region frame x y w h (crop frame x y w h).
Proof.
  split.
  - unfold crop. rewrite length_map. unfold slice.
    rewrite length_firstn, length_skipn.
    replace (y + h - y) with h by lia. reflexivity.
  - apply pixel_at_crop.
Qed.

(** A region of a frame is one image. *)
Lemma is_region_unique frame x y w h image image' :
  is_region frame x y w h image ->
  is_region frame x y w h image' ->
  image = image'.
Proof.
  intros [Hl Hp] [Hl' Hp']. apply nth_error_ext. intros i.
  destruct (nth_error image i) as [row|] eqn:Hi;
    destruct (nth_error image' i) as [row'|] eqn:Hi'.
  - f_equal. apply nth_error_ext. intros j.
    pose proof (Hp i j) as H. pose proof (Hp' i j) as H'.
    unfold pixel_at in H, H'. rewrite Hi in H. rewrite Hi' in H'.
    congruence.
  - exfalso. apply nth_error_None in Hi'.
    assert (i < length image) by (apply nth_error_Some; congruence). lia.
  - exfalso. apply nth_error_None in Hi.
    assert (i < length image') by (apply nth_error_Some; congruence). lia.
  - reflexivity.
Qed.

(** C8. When localization finds at least one face, the adapter works
    on the first region only.  The image it hands to the classifier is
    the part of the frame inside that region: rows [y] to [y + h],
    columns [x] to [x + w], and nothing else.  Its outcome is the same
    under any other collaborators that report the same first region
    and analyse that image alike, whatever the other regions are and
    whatever the classifier does on other images.  The region it
    returns is that first one; the confidence is the score the
    classifier reports for the dominant label, and 0 when there is no
    label. *)
Theorem detect_emotion_first_face (E : Collaborators) (frame : Frame)
    (gray : Gray) (x y w h : nat) (rest : list Box) :
  cvtColor E frame = Return gray ->
  detectMultiScale E gray = Return ((x, y, w, h) :: rest) ->
  (exists face_img, is_region frame x y w h face_img) /\
  (forall face_img,
     is_region frame x y w h face_img ->
     (forall E' gray' rest',
        cvtColor E' frame = Return gray' ->
        detectMultiScale E' gray' = Return ((x, y, w, h) :: rest') ->
        DeepFace_analyze E' face_img = DeepFace_analyze E face_img ->
        detect_emotion E' frame = detect_emotion E frame) /\
     (forall r others scores,
        DeepFace_analyze E face_img = Return (r :: others) ->
        key_emotion r = Some scores ->
        exists confidence,
          detect_emotion E frame =
          ([], Return (Some (x, y, w, h), key_dominant_emotion r,
                       confidence)) /\
          (forall label score,
             key_dominant_emotion r = Some label ->
             Dict.lookup label scores = Some score ->
             confidence = PyFloat score) /\
          (key_dominant_emotion r = None -> confidence = PyInt 0))) /\
  (forall face_box emotion confidence,
     snd (detect_emotion E frame) = Return (face_box, emotion, confidence) ->
     (face_box = Some (x, y, w, h) \/ face_box = None) /\
     (emotion = None -> confidence = PyInt 0)).
Proof.
  intros Hg Hf. split; [|split].
  - exists (crop frame x y w h). apply crop_is_region.
  - intros face_img Hregion.
    assert (Himg : face_img = crop frame x y w h)
      by (apply (is_region_unique frame x y w h);
          [exact Hregion|apply crop_is_region]).
    subst face_img. split.
    + intros E' gray' rest' Hg' Hf' Ha. unfold detect_emotion.
      rewrite (detect_emotion_try_face E' frame gray' x y w h rest' Hg' Hf').
      rewrite (detect_emotion_try_face E frame gray x y w h rest Hg Hf).
      rewrite Ha. reflexivity.
    + intros r others scores Ha Hk.
      exists (scores_get (key_dominant_emotion r) scores). split; [|split].
      * apply (detect_emotion_analysed E frame gray x y w h rest r others
                 scores); assumption.
      * intros label score Hl Hs. unfold scores_get. rewrite Hl, Hs.
        reflexivity.
      * intros Hl. unfold scores_get. rewrite Hl. reflexivity.
  - intros face_box emotion confidence H.
    destruct (detect_emotion_outcome E frame)
      as [(r & Ht & Hd)|[(e' & _ & _ & Hd)|(e' & _ & _ & Hd)]];
      rewrite Hd in H; simpl in H; try discriminate.
    + injection H as ->.
      rewrite (detect_emotion_try_face E frame gray x y w h rest Hg Hf) in Ht.
      destruct (DeepFace_analyze E (crop frame x y w h)) as [results|e0];
        [|discriminate].
      destruct results as [|r others]; [discriminate|].
      simpl in Ht. unfold getitem_emotion in Ht.
      destruct (key_emotion r) as [scores|]; [|discriminate].
      simpl in Ht. injection Ht as <- <- <-.
      split; [left; reflexivity|].
      intros Hl. unfold scores_get. rewrite Hl. reflexivity.
    + injection H as <- <- <-. split; [right; reflexivity|reflexivity].
Qed.

Lemma detect_emotion_first_face_witness :
  let pixel : Pixel := (10, 20, 30)%N in
  let face_img : Frame := [[pixel; pixel]; [pixel; pixel]] in
  cvtColor (Sample.sees Sample.happy) Sample.frame =
    Return (Sample.gray_of Sample.frame) /\
  detectMultiScale (Sample.sees Sample.happy) (Sample.gray_of Sample.frame) =
    Return [Sample.box; Sample.other_box] /\
  is_region Sample.frame 1 1 2 2 face_img /\
  exists confidence,
    detect_emotion (Sample.sees Sample.happy) Sample.frame =
    ([], Return (Some Sample.box, Some "happy"%string, confidence)) /\
    confidence = PyFloat Sample.score_high.
Proof.
  intros pixel face_img.
  assert (Hregion : is_region Sample.frame 1 1 2 2 face_img)
    by exact (crop_is_region Sample.frame 1 1 2 2).
  split; [reflexivity|]. split; [reflexivity|]. split; [exact Hregion|].
  destruct (proj2 (proj1 (proj2 (detect_emotion_first_face
                                   (Sample.sees Sample.happy) Sample.frame
                                   (Sample.gray_of Sample.frame) 1 1 2 2
                                   [Sample.other_box] eq_refl eq_refl))
                     face_img Hregion)
              Sample.happy [] _ eq_refl eq_refl)
    as (confidence & Hd & Hscore & _).
  exists confidence. split; [exact Hd|].
  apply (Hscore "happy"%string); reflexivity.
Defined.

(** C10. A confidence of 0 does not tell that no emotion was found:
    when the score map lacks the dominant label, the adapter returns
    that label with the default 0; and a face region can come with no
    label at all. *)
Theorem zero_confidence_with_label :
  (exists E frame face_box label,
     detect_emotion E frame =
     ([], Return (Some face_box, Some label, PyInt 0))) /\
  (exists E frame face_box confidence,
     detect_emotion E frame =
     ([], Return (Some face_box, None, confidence))) /\
  (forall E frame gray x y w h rest r others scores label,
     cvtColor E frame = Return gray ->
     detectMultiScale E gray = Return ((x, y, w, h) :: rest) ->
     DeepFace_analyze E (crop frame x y w h) = Return (r :: others) ->
     key_emotion r = Some scores ->
     key_dominant_emotion r = Some label ->
     Dict.lookup label scores = None ->
     detect_emotion E frame =
     ([], Return (Some (x, y, w, h), Some label, PyInt 0))).
Proof.
  split; [|split].
  - exists (Sample.sees Sample.unlisted), Sample.frame, Sample.box,
      "happy"%string. reflexivity.
  - exists (Sample.sees Sample.unlabelled), Sample.frame, Sample.box,
      (PyInt 0). reflexivity.
  - intros E frame gray x y w h rest r others scores label Hg Hf Ha Hk Hl Hs.
    rewrite (detect_emotion_analysed E frame gray x y w h rest r others scores
               Hg Hf Ha Hk).
    unfold scores_get. rewrite Hl, Hs. reflexivity.
Qed.

Lemma zero_confidence_with_label_witness :
  detect_emotion (Sample.sees Sample.unlisted) Sample.frame =
  ([], Return (Some Sample.box, Some "happy"%string, PyInt 0)).
Proof.
  apply (proj2 (proj2 zero_confidence_with_label)
           (Sample.sees Sample.unlisted) Sample.frame
           (Sample.gray_of Sample.frame) 1 1 2 2 [Sample.other_box]
           Sample.unlisted [] [("sad"%string, Sample.score_low)]
           "happy"%string);
    reflexivity.
Defined.

(* ===================================================================== *)
(** * The session *)
(* ===================================================================== *)

Lemma append_len {A : Type} (m : nat) (x : A) (d : Deque.t A) :
  Deque.maxlen d = Some m ->
  Deque.len d <= m ->
  Deque.len (Deque.append x d) = Nat.min (Deque.len d + 1) m.
Proof.
  intros Hm Hlen. unfold Deque.len in *.
  rewrite (append_items_bounded m x d Hm). cbv zeta.
  rewrite length_app. simpl length.
  destruct (Nat.ltb_spec m (length (Deque.items d) + 1)) as [Hlt|Hge].
  - destruct (Deque.items d) as [|y l]; cbn [app tl length] in *; [lia|].
    rewrite length_app. cbn [length]. lia.
  - rewrite length_app. cbn [length]. lia.
Qed.

Lemma parallel_init : parallel EmotionDetector_init.
Proof.
  split; [split; reflexivity|]. split; [reflexivity|].
  unfold Deque.len. simpl. lia.
Qed.

Lemma parallel_reset d : parallel d -> parallel (reset_emotion_history d).
Proof.
  intros (Hc & _ & _). split; [apply reset_capacity, Hc|].
  split; [reflexivity|]. unfold Deque.len. simpl. lia.
Qed.

Lemma parallel_record emotion now d :
  parallel d -> parallel (run_detection_record emotion now d).
Proof.
  intros (Hc & Heq & Hle). split; [apply record_capacity, Hc|].
  unfold run_detection_record.
  destruct emotion as [label|]; [|split; assumption].
  destruct (truthy_label (Some label)); [|split; assumption].
  destruct Hc as [Hh Ht]. simpl.
  rewrite (append_len 100 label _ Hh Hle).
  rewrite (append_len 100 now _ Ht) by lia.
  split; lia.
Qed.

Lemma run_detection_step_detector E w pc a :
  detector (snd (run_detection_step E w pc a)) = detector a \/
  exists emotion,
    pc = AtRecord emotion /\
    detector (snd (run_detection_step E w pc a)) =
    run_detection_record emotion (now w) (detector a).
Proof.
  destruct pc as [| |frame|emotion|]; simpl.
  - left. destruct (detection_active a); reflexivity.
  - left. destruct (cap_read w) as [ret frame].
    destruct (negb ret); reflexivity.
  - left. destruct (snd (detect_emotion E frame)) as [[[fb em] cf]|e];
      reflexivity.
  - right. exists emotion. split; reflexivity.
  - left. reflexivity.
Qed.

Lemma step_thread E a tid w pc :
  nth_error (threads a) tid = Some pc ->
  step E a (Thread tid w) =
  let pa := run_detection_step E w pc a in
  {| detector := detector (snd pa);
     detection_active := detection_active (snd pa);
     emotion_stats_label := emotion_stats_label (snd pa);
     threads := set_nth tid (fst pa) (threads (snd pa)) |}.
Proof.
  intros H. unfold step. rewrite H.
  destruct (run_detection_step E w pc a) as [pc' a']. reflexivity.
Qed.

Lemma step_parallel E a act :
  parallel (detector a) -> parallel (detector (step E a act)).
Proof.
  intros H. destruct act as [| | |tid w].
  - simpl. unfold start_detection.
    destruct (detection_active a); simpl; [exact H|apply parallel_reset, H].
  - simpl. unfold stop_detection.
    destruct (detection_active a); simpl; exact H.
  - exact H.
  - destruct (nth_error (threads a) tid) as [pc|] eqn:Hn.
    + rewrite (step_thread E a tid w pc Hn). simpl.
      destruct (run_detection_step_detector E w pc a)
        as [->|(emotion & _ & ->)]; [exact H|apply parallel_record, H].
    + unfold step. rewrite Hn. exact H.
Qed.

Lemma run_parallel E acts : forall a,
  parallel (detector a) -> parallel (detector (run E a acts)).
Proof.
  induction acts as [|act acts IH]; intros a H; simpl; [exact H|].
  apply IH, step_parallel, H.
Qed.

Lemma apply_operations_parallel ops : forall d,
  parallel d -> parallel (apply_operations ops d).
Proof.
  induction ops as [|op ops IH]; intros d H; simpl; [exact H|].
  apply IH. destruct op as [|emotion now]; simpl.
  - apply parallel_reset, H.
  - apply parallel_record, H.
Qed.

(** The record block is its two statements, one after the other. *)
Lemma record_block_in_two label now d :
  truthy_label (Some label) = true ->
  run_detection_record (Some label) now d =
  append_timestamp now (append_emotion label d).
Proof.
  intros Ht. unfold run_detection_record. rewrite Ht. reflexivity.
Qed.

(** C9, as the claim states it, fails: the two appends of the record
    block are two statements, and a reset that runs between them (stop
    pressed during the analysis, start pressed after the first append)
    leaves no label and one timestamp. *)
Lemma histories_diverge_between_appends :
  ~ (forall E s,
       fine_reachable E s ->
       Deque.len (emotion_history (detector (main s))) =
       Deque.len (emotion_timestamps (detector (main s)))).
Proof.
  intros H.
  specialize (H (Sample.sees Sample.happy)
                (fine_run (Sample.sees Sample.happy) fine_init
                          reset_between_appends)
                (ex_intro _ reset_between_appends eq_refl)).
  vm_compute in H. discriminate.
Qed.

(** C9, amended.  The label history and the timestamp history stay of
    one length as long as each operation runs as a whole: they start
    equal, [reset_emotion_history] clears both, a record block appends
    to both under the same capacity of 100, and so the lengths agree,
    and are at most 100, after any sequence of whole resets and whole
    record blocks. *)
Theorem histories_parallel :
  (Deque.len (emotion_history EmotionDetector_init) =
   Deque.len (emotion_timestamps EmotionDetector_init)) /\
  (forall d,
     Deque.len (emotion_history (reset_emotion_history d)) =
     Deque.len (emotion_timestamps (reset_emotion_history d))) /\
  (forall d emotion now,
     parallel d -> parallel (run_detection_record emotion now d)) /\
  (forall ops,
     Deque.len (emotion_history
                  (apply_operations ops EmotionDetector_init)) =
     Deque.len (emotion_timestamps
                  (apply_operations ops EmotionDetector_init)) /\
     Deque.len (emotion_history
                  (apply_operations ops EmotionDetector_init)) <= 100).
Proof.
  split; [reflexivity|]. split; [reflexivity|]. split.
  - intros d emotion now. apply parallel_record.
  - intros ops.
    apply (apply_operations_parallel ops EmotionDetector_init parallel_init).
Qed.

Lemma histories_parallel_witness :
  parallel EmotionDetector_init /\
  parallel (run_detection_record (Some "happy"%string) 1%Z
                                 EmotionDetector_init).
Proof.
  split; [exact parallel_init|].
  apply (proj1 (proj2 (proj2 histories_parallel))
           EmotionDetector_init (Some "happy"%string) 1%Z parallel_init).
Defined.

(** C4, as the claim states it, fails: started while active, the
    session keeps its history, and the next label joins the old one. *)
Lemma start_while_active_keeps_history :
  ~ (forall a obs,
       capacity_100 (detector a) ->
       Deque.items (emotion_history
                      (record_all obs (detector (start_detection a)))) =
       lastn 100 (map fst (recorded obs))).
Proof.
  intros H.
  specialize (H Sample.active_with_sad [(Some "happy"%string, 2%Z)]).
  assert (Hc : capacity_100 (detector Sample.active_with_sad))
    by (split; reflexivity).
  specialize (H Hc). vm_compute in H. discriminate.
Qed.

(** C4, amended. [start_detection] from an inactive session clears the
    label history and the timestamps and makes the session active, so
    the history then holds the labels recorded after the call and no
    other.  While the session is active it leaves the history as it
    is. *)
Theorem start_detection_clears_when_inactive (a : EmotionDetectionApp) :
  (detection_active a = false ->
   Deque.items (emotion_history (detector (start_detection a))) = [] /\
   Deque.items (emotion_timestamps (detector (start_detection a))) = [] /\
   detection_active (start_detection a) = true /\
   (capacity_100 (detector a) ->
    forall obs,
      Deque.items (emotion_history
                     (record_all obs (detector (start_detection a)))) =
      lastn 100 (map fst (recorded obs)))) /\
  (detection_active a = true ->
   emotion_history (detector (start_detection a)) =
   emotion_history (detector a)).
Proof.
  unfold start_detection. split; intros Ha; rewrite Ha; simpl.
  - repeat split.
    intros Hc obs.
    apply (record_all_history obs (reset_emotion_history (detector a)) []).
    + simpl. apply Hc.
    + reflexivity.
  - reflexivity.
Qed.

Lemma start_detection_clears_when_inactive_witness :
  detection_active (snd (stop_detection Sample.active_with_sad)) = false /\
  Deque.items (emotion_history
                 (detector (snd (stop_detection Sample.active_with_sad)))) =
    ["sad"%string] /\
  Deque.items
    (emotion_history
       (detector (start_detection
                    (snd (stop_detection Sample.active_with_sad))))) = [].
Proof.
  split; [reflexivity|]. split; [reflexivity|].
  apply (proj1 (start_detection_clears_when_inactive
                  (snd (stop_detection Sample.active_with_sad)))).
  reflexivity.
Defined.

(** C5. [start_detection] on an active session does nothing: it
    returns the state it was given, so the history, the flag (still
    active) and the thread table (no new thread) are as before. *)
Theorem start_while_active_is_noop (E : Collaborators)
    (a : EmotionDetectionApp) :
  detection_active a = true ->
  start_detection a = a /\
  step E a Start = a /\
  detector (start_detection a) = detector a /\
  detection_active (start_detection a) = true /\
  threads (start_detection a) = threads a.
Proof.
  intros Ha.
  assert (H : start_detection a = a)
    by (unfold start_detection; rewrite Ha; reflexivity).
  simpl step. rewrite H. repeat split. exact Ha.
Qed.

Lemma start_while_active_is_noop_witness :
  detection_active Sample.active_with_sad = true /\
  start_detection Sample.active_with_sad = Sample.active_with_sad /\
  threads (start_detection Sample.active_with_sad) = [AtRead].
Proof.
  split; [reflexivity|].
  destruct (start_while_active_is_noop (Sample.sees Sample.happy)
              Sample.active_with_sad eq_refl) as (H & _ & _ & _ & Ht).
  split; [exact H|exact Ht].
Defined.




Section ThreadTable.
Context {A : Type}.
Implicit Types (l : list A) (x : A) (i : nat).

Lemma nth_error_set_nth i x l y :
  nth_error l i = Some y -> nth_error (set_nth i x l) i = Some x.
Proof.
  revert i. induction l as [|z l IH]; intros [|i] H; simpl in *;
    try discriminate; [reflexivity|apply IH, H].
Qed.

Lemma forallb_set_nth (p : A -> bool) i x l :
  forallb p l = true -> p x = true -> forallb p (set_nth i x l) = true.
Proof.
  intros Hl Hx. revert i. induction l as [|z l IH]; intros i; simpl.
  - destruct i; reflexivity.
  - simpl in Hl. apply andb_prop in Hl. destruct Hl as [Hz Hl].
    destruct i as [|i]; simpl.
    + rewrite Hx, Hl. reflexivity.
    + rewrite Hz, (IH Hl i). reflexivity.
Qed.

Lemma forallb_nth_error (p : A -> bool) i x l :
  forallb p l = true -> nth_error l i = Some x -> p x = true.
Proof.
  intros Hl Hn. rewrite forallb_forall in Hl.
  apply Hl. eapply nth_error_In. exact Hn.
Qed.

End ThreadTable.

(** A thread step leaves the flag, the label and the detector's
    capacity alone; only a record block touches the detector. *)
Lemma run_detection_step_flag E w pc a :
  detection_active (snd (run_detection_step E w pc a)) = detection_active a /\
  threads (snd (run_detection_step E w pc a)) = threads a.
Proof.
  destruct pc as [| |frame|emotion|]; simpl.
  - destruct (detection_active a) eqn:Ha; simpl; rewrite Ha;
      split; reflexivity.
  - destruct (cap_read w) as [ret frame].
    destruct (negb ret); split; reflexivity.
  - destruct (snd (detect_emotion E frame)) as [[[fb em] cf]|e];
      split; reflexivity.
  - split; reflexivity.
  - split; reflexivity.
Qed.

(** While the session is inactive and no iteration is in flight, every
    step but a start keeps the detector, the flag and the calm. *)
Lemma step_quiescent E a act :
  detection_active a = false ->
  quiescent a ->
  is_start act = false ->
  detector (step E a act) = detector a /\
  detection_active (step E a act) = false /\
  quiescent (step E a act).
Proof.
  intros Ha Hq Hs. destruct act as [| | |tid w]; [discriminate| | |].
  - simpl. unfold stop_detection. rewrite Ha. simpl. auto.
  - simpl. auto.
  - destruct (nth_error (threads a) tid) as [pc|] eqn:Hn.
    2:{ unfold step. rewrite Hn. auto. }
    rewrite (step_thread E a tid w pc Hn).
    pose proof (forallb_nth_error _ tid pc (threads a) Hq Hn) as Hpc.
    unfold quiescent.
    destruct pc as [| |frame|emotion|]; simpl in Hpc; try discriminate;
      simpl; rewrite ?Ha; simpl;
      (split; [reflexivity|split; [assumption|]]);
      apply forallb_set_nth; auto.
Qed.

Lemma run_quiescent E acts : forall a,
  detection_active a = false ->
  quiescent a ->
  forallb (fun act => negb (is_start act)) acts = true ->
  detector (run E a acts) = detector a /\
  detection_active (run E a acts) = false.
Proof.
  induction acts as [|act acts IH]; intros a Ha Hq Hacts; simpl.
  - auto.
  - simpl in Hacts. apply andb_prop in Hacts. destruct Hacts as [Hact Hacts].
    apply negb_true_iff in Hact.
    destruct (step_quiescent E a act Ha Hq Hact) as (Hd & Ha' & Hq').
    destruct (IH (step E a act) Ha' Hq' Hacts) as [IH1 IH2].
    rewrite IH1, Hd. auto.
Qed.

(** C7, as the claim states it, fails: an iteration that passed the
    test before the stop records its label after it. *)
Lemma record_after_stop :
  ~ (forall E a,
       reachable E a ->
       detection_active a = false ->
       forall tid w,
         emotion_history (detector (step E a (Thread tid w))) =
         emotion_history (detector a)).
Proof.
  intros H.
  assert (R : reachable (Sample.sees Sample.happy) Sample.stopped_in_flight)
    by (eexists; reflexivity).
  specialize (H _ _ R eq_refl 0 Sample.tick).
  vm_compute in H. discriminate.
Qed.

(** C7, amended. While the session is inactive, an iteration of the
    detection loop that begins (tests the flag) leaves the detector as
    it is and ends its thread; the label history changes only by a
    start, or by the record block of an iteration that is already past
    its test; when no iteration is in flight, no sequence of steps
    without a start changes the detector; and the record block of an
    iteration in flight does append its label. *)
Theorem inactive_iteration_leaves_history (E : Collaborators)
    (a : EmotionDetectionApp) :
  detection_active a = false ->
  (forall tid w,
     nth_error (threads a) tid = Some AtWhile ->
     detector (step E a (Thread tid w)) = detector a /\
     detection_active (step E a (Thread tid w)) = false /\
     nth_error (threads (step E a (Thread tid w))) tid = Some Finished) /\
  (forall act,
     Deque.items (emotion_history (detector (step E a act))) <>
     Deque.items (emotion_history (detector a)) ->
     act = Start \/
     exists tid w emotion,
       act = Thread tid w /\
       nth_error (threads a) tid = Some (AtRecord emotion) /\
       truthy_label emotion = true) /\
  (quiescent a ->
   forall acts,
     forallb (fun act => negb (is_start act)) acts = true ->
     detector (run E a acts) = detector a /\
     detection_active (run E a acts) = false) /\
  (forall tid w label,
     nth_error (threads a) tid = Some (AtRecord (Some label)) ->
     truthy_label (Some label) = true ->
     emotion_history (detector (step E a (Thread tid w))) =
     Deque.append label (emotion_history (detector a))).
Proof.
  intros Ha. split; [|split; [|split]].
  - intros tid w Hn. rewrite (step_thread E a tid w AtWhile Hn).
    simpl. rewrite Ha. simpl. repeat split; try assumption.
    apply (nth_error_set_nth tid Finished (threads a) AtWhile Hn).
  - intros act Hne. destruct act as [| | |tid w].
    + left. reflexivity.
    + exfalso. apply Hne. simpl. unfold stop_detection. rewrite Ha.
      reflexivity.
    + exfalso. apply Hne. reflexivity.
    + right. destruct (nth_error (threads a) tid) as [pc|] eqn:Hn.
      2:{ exfalso. apply Hne. unfold step. rewrite Hn. reflexivity. }
      rewrite (step_thread E a tid w pc Hn) in Hne. simpl in Hne.
      destruct (run_detection_step_detector E w pc a)
        as [Hd|(emotion & -> & Hd)]; rewrite Hd in Hne.
      * exfalso. apply Hne. reflexivity.
      * exists tid, w, emotion.
        split; [reflexivity|split; [exact Hn|]].
        destruct emotion as [label|]; simpl in Hne;
          [|exfalso; apply Hne; reflexivity].
        destruct (truthy_label (Some label)) eqn:Ht; [reflexivity|].
        exfalso. apply Hne. unfold truthy_label in Ht. rewrite Ht.
        reflexivity.
  - intros Hq acts Hacts. apply run_quiescent; assumption.
  - intros tid w label Hn Ht.
    rewrite (step_thread E a tid w (AtRecord (Some label)) Hn). simpl.
    unfold truthy_label in Ht. rewrite Ht. reflexivity.
Qed.

Lemma inactive_iteration_leaves_history_witness :
  let E := Sample.sees Sample.happy in
  let a := run E EmotionDetectionApp_init [Start; Stop] in
  detection_active a = false /\
  nth_error (threads a) 0 = Some AtWhile /\
  detector (step E a (Thread 0 Sample.tick)) = detector a /\
  Deque.len (emotion_history (detector (step E a (Thread 0 Sample.tick)))) = 0.
Proof.
  intros E a.
  assert (Ha : detection_active a = false) by reflexivity.
  assert (Hn : nth_error (threads a) 0 = Some AtWhile) by reflexivity.
  split; [exact Ha|]. split; [exact Hn|].
  destruct (proj1 (inactive_iteration_leaves_history E a Ha) 0 Sample.tick Hn)
    as (Hd & _ & _).
  split; [exact Hd|]. rewrite Hd. reflexivity.
Defined.

(* ===================================================================== *)
(** * Further properties of the history and the statistics *)
(* ===================================================================== *)

Lemma record_all_timestamps obs : forall d l,
  Deque.maxlen (emotion_timestamps d) = Some 100 ->
  Deque.items (emotion_timestamps d) = lastn 100 l ->
  Deque.items (emotion_timestamps (record_all obs d)) =
  lastn 100 (l ++ map snd (recorded obs)).
Proof.
  induction obs as [|[e t] obs IH]; intros d l Hm Hi; simpl.
  - rewrite app_nil_r. exact Hi.
  - destruct e as [label|]; simpl; [|apply IH; assumption].
    destruct (negb (label =? "")%string); [|apply IH; assumption].
    simpl. replace (l ++ t :: map snd (recorded obs))
      with ((l ++ [t]) ++ map snd (recorded obs))
      by (rewrite <- app_assoc; reflexivity).
    apply IH; simpl.
    + rewrite append_maxlen. exact Hm.
    + apply append_lastn; assumption.
Qed.

Lemma combine_skipn {A B : Type} (k : nat) : forall (l : list A) (r : list B),
  combine (skipn k l) (skipn k r) = skipn k (combine l r).
Proof.
  induction k as [|k IH]; intros [|x l] [|y r]; simpl; auto.
  destruct (skipn k l); reflexivity.
Qed.

Lemma combine_fst_snd {A B : Type} (l : list (A * B)) :
  combine (map fst l) (map snd l) = l.
Proof.
  induction l as [|[x y] l IH]; simpl; [reflexivity|]. rewrite IH. reflexivity.
Qed.

(** X1. The two deques hold one sequence of observations: after a
    reset and any run of record blocks, pairing the label history with
    the timestamp history position by position gives the most recent
    (at most 100) recorded (label, instant) pairs in arrival order. *)
Theorem history_pairs_with_timestamps (d0 : EmotionDetector)
    (obs : list (option string * Instant)) :
  capacity_100 d0 ->
  let d := record_all obs (reset_emotion_history d0) in
  Deque.items (emotion_timestamps d) = lastn 100 (map snd (recorded obs)) /\
  combine (Deque.items (emotion_history d))
          (Deque.items (emotion_timestamps d)) =
  lastn 100 (recorded obs).
Proof.
  intros [Hh Ht] d.
  assert (Hts : Deque.items (emotion_timestamps d) =
                lastn 100 (map snd (recorded obs))).
  { apply (record_all_timestamps obs (reset_emotion_history d0) []);
      [exact Ht|reflexivity]. }
  assert (Hls : Deque.items (emotion_history d) =
                lastn 100 (map fst (recorded obs))).
  { apply (record_all_history obs (reset_emotion_history d0) []);
      [exact Hh|reflexivity]. }
  split; [exact Hts|].
  rewrite Hts, Hls. unfold lastn. rewrite !length_map.
  rewrite combine_skipn, combine_fst_snd. reflexivity.
Qed.

Lemma history_pairs_with_timestamps_witness :
  capacity_100 EmotionDetector_init /\
  let obs := [(Some "happy"%string, 1%Z); (Some ""%string, 2%Z);
              (Some "sad"%string, 3%Z)] in
  let d := record_all obs (reset_emotion_history EmotionDetector_init) in
  combine (Deque.items (emotion_history d))
          (Deque.items (emotion_timestamps d)) =
  [("happy"%string, 1%Z); ("sad"%string, 3%Z)].
Proof.
  assert (Hc : capacity_100 EmotionDetector_init) by (split; reflexivity).
  split; [exact Hc|]. intros obs d. unfold d.
  rewrite (proj2 (history_pairs_with_timestamps EmotionDetector_init obs Hc)).
  reflexivity.
Defined.

(** The keys of the counting loop started from [acc]. *)
Lemma keys_set_order {V : Type} k (v : V) (d : Dict.t V) :
  Dict.keys (Dict.set k v d) =
  if mem_label k (Dict.keys d) then Dict.keys d else Dict.keys d ++ [k].
Proof.
  unfold Dict.keys, mem_label. induction d as [|[k0 v0] d IH]; simpl.
  - reflexivity.
  - destruct (String.eqb k k0); simpl; [reflexivity|].
    rewrite IH. destruct (existsb (String.eqb k) (map fst d)); reflexivity.
Qed.

Lemma mem_label_app x l r :
  mem_label x (l ++ r) = mem_label x l || mem_label x r.
Proof. unfold mem_label. apply existsb_app. Qed.

Lemma filter_not_mem_snoc ks x (l : list string) :
  filter (fun y => negb (mem_label y (ks ++ [x]))) l =
  filter (fun y => negb (mem_label y ks))
         (filter (fun y => negb (String.eqb y x)) l).
Proof.
  induction l as [|y l IH]; simpl; [reflexivity|].
  rewrite mem_label_app. simpl. rewrite orb_false_r, negb_orb.
  destruct (String.eqb y x); simpl.
  - rewrite andb_false_r. exact IH.
  - rewrite andb_true_r.
    destruct (negb (mem_label y ks)); [rewrite IH|]; auto.
Qed.

Lemma filter_not_mem_absorb ks x (l : list string) :
  mem_label x ks = true ->
  filter (fun y => negb (mem_label y ks))
         (filter (fun y => negb (String.eqb y x)) l) =
  filter (fun y => negb (mem_label y ks)) l.
Proof.
  intros Hx. induction l as [|y l IH]; simpl; [reflexivity|].
  destruct (String.eqb_spec y x) as [->|Hne]; simpl.
  - rewrite Hx. simpl. exact IH.
  - destruct (negb (mem_label y ks)); [rewrite IH|]; auto.
Qed.

Lemma count_loop_keys history : forall acc : Dict.t Z,
  Dict.keys
    (fold_left
       (fun emotion_counts emotion =>
          Dict.set emotion (Dict.get emotion 0%Z emotion_counts + 1)%Z
                   emotion_counts) history acc) =
  Dict.keys acc ++
  filter (fun y => negb (mem_label y (Dict.keys acc)))
         (first_occurrences history).
Proof.
  induction history as [|e history IH]; intros acc; simpl.
  - rewrite app_nil_r. reflexivity.
  - rewrite IH, keys_set_order.
    destruct (mem_label e (Dict.keys acc)) eqn:He; simpl.
    + rewrite filter_not_mem_absorb by exact He. reflexivity.
    + rewrite filter_not_mem_snoc, <- app_assoc. reflexivity.
Qed.

Lemma filter_all_true {A : Type} (l : list A) : filter (fun _ => true) l = l.
Proof. induction l as [|x l IH]; simpl; [|rewrite IH]; reflexivity. Qed.

Lemma stats_keys_first_occurrences (d : EmotionDetector) :
  Dict.keys (get_emotion_stats d) =
  first_occurrences (Deque.items (emotion_history d)).
Proof.
  destruct (Deque.items (emotion_history d)) as [|x l] eqn:E.
  - unfold get_emotion_stats, Deque.truthy. rewrite E. reflexivity.
  - rewrite get_emotion_stats_nonempty by (rewrite E; discriminate).
    rewrite E.
    rewrite (keys_map_values
               (fun c => percentage c (Z.of_nat (length (x :: l))))
               (count_emotions (x :: l))).
    unfold count_emotions. rewrite count_loop_keys. simpl.
    rewrite filter_all_true. reflexivity.
Qed.

Lemma In_first_occurrences y (l : list string) :
  In y (first_occurrences l) <-> In y l.
Proof.
  induction l as [|x l IH]; simpl; [tauto|].
  rewrite filter_In, IH.
  destruct (String.eqb_spec y x) as [->|Hne]; simpl.
  - split; auto.
  - split; [intros [H|[H _]]; auto|].
    intros [H|H]; [left; exact H|right; split; [exact H|reflexivity]].
Qed.

(** A table with distinct keys is the list of its keys, each with the
    value that a lookup finds. *)
Lemma dict_from_keys {V : Type} (f : string -> V) (d : Dict.t V) :
  NoDup (Dict.keys d) ->
  (forall k, In k (Dict.keys d) -> Dict.lookup k d = Some (f k)) ->
  d = map (fun k => (k, f k)) (Dict.keys d).
Proof.
  unfold Dict.keys. induction d as [|[k0 v0] d IH]; intros Hnd Hl; simpl.
  - reflexivity.
  - inversion Hnd as [|? ? Hnin Hnd']; subst.
    assert (H0 : Some v0 = Some (f k0)).
    { specialize (Hl k0 (or_introl eq_refl)). simpl in Hl.
      rewrite String.eqb_refl in Hl. exact Hl. }
    injection H0 as ->. f_equal. apply IH; [exact Hnd'|].
    intros k Hk. specialize (Hl k (or_intror Hk)). simpl in Hl.
    destruct (String.eqb_spec k k0) as [Heq|Hne]; [|exact Hl].
    exfalso. apply Hnin. rewrite <- Heq. exact Hk.
Qed.

Lemma lookup_from_keys {V : Type} (f : string -> V) label (ks : list string) :
  Dict.lookup label (map (fun k => (k, f k)) ks) =
  if mem_label label ks then Some (f label) else None.
Proof.
  unfold mem_label. induction ks as [|k ks IH]; simpl; [reflexivity|].
  destruct (String.eqb_spec label k) as [->|Hne]; simpl; [reflexivity|exact IH].
Qed.

(** The statistics in closed form. *)
Lemma get_emotion_stats_entries (d : EmotionDetector) :
  let h := Deque.items (emotion_history d) in
  get_emotion_stats d =
  map (fun label =>
         (label, percentage (Z.of_nat (count_occ string_dec h label))
                            (Z.of_nat (length h))))
      (first_occurrences h).
Proof.
  intros h. subst h. rewrite <- stats_keys_first_occurrences.
  destruct (Deque.items (emotion_history d)) as [|x l] eqn:E.
  - unfold get_emotion_stats, Deque.truthy. rewrite E. reflexivity.
  - assert (Hne : Deque.items (emotion_history d) <> [])
      by (rewrite E; discriminate).
    rewrite <- E. set (h := Deque.items (emotion_history d)) in *.
    destruct (count_emotions_spec h) as (Hnd & _ & Hkeys & Hlook & _).
    pose proof (keys_map_values
                  (fun c => percentage c (Z.of_nat (length h)))
                  (count_emotions h)) as Hk. simpl in Hk.
    apply (dict_from_keys
             (fun label =>
                percentage (Z.of_nat (count_occ string_dec h label))
                           (Z.of_nat (length h)))).
    + rewrite (get_emotion_stats_nonempty d Hne). fold h.
      rewrite Hk. exact Hnd.
    + intros k. rewrite (get_emotion_stats_nonempty d Hne). fold h.
      rewrite Hk. intros Hin. apply Hkeys in Hin.
      rewrite (lookup_map (fun c => percentage c (Z.of_nat (length h)))),
        (Hlook k Hin). reflexivity.
Qed.

(** X2. [get_emotion_stats] in closed form: one entry per distinct
    label, in the order in which the labels first occur in the history
    (the order of the lines that [stop_detection] shows), each with
    the float [count / total * 100] of its number of occurrences. *)
Theorem get_emotion_stats_closed_form (d : EmotionDetector) :
  let h := Deque.items (emotion_history d) in
  get_emotion_stats d =
  map (fun label =>
         (label, percentage (Z.of_nat (count_occ string_dec h label))
                            (Z.of_nat (length h))))
      (first_occurrences h) /\
  Dict.keys (get_emotion_stats d) = first_occurrences h /\
  (forall label, ~ In label h -> Dict.lookup label (get_emotion_stats d) = None).
Proof.
  intros h. split; [apply get_emotion_stats_entries|].
  split; [apply stats_keys_first_occurrences|].
  intros label Hnin.
  destruct (Dict.lookup label (get_emotion_stats d)) eqn:E; [|reflexivity].
  exfalso. apply Hnin. apply In_first_occurrences. unfold h.
  rewrite <- (stats_keys_first_occurrences d).
  apply lookup_keys. rewrite E. discriminate.
Qed.

Lemma mem_label_In x (l : list string) : mem_label x l = true <-> In x l.
Proof.
  unfold mem_label. rewrite existsb_exists. split.
  - intros (y & Hy & E). apply String.eqb_eq in E. subst. exact Hy.
  - intros H. exists x. split; [exact H|apply String.eqb_refl].
Qed.

(** What a lookup in the statistics finds. *)
Lemma stats_lookup (d : EmotionDetector) label :
  Dict.lookup label (get_emotion_stats d) =
  if mem_label label (Deque.items (emotion_history d)) then
    Some (percentage
            (Z.of_nat (count_occ string_dec
                         (Deque.items (emotion_history d)) label))
            (Z.of_nat (length (Deque.items (emotion_history d)))))
  else None.
Proof.
  rewrite (get_emotion_stats_entries d). cbv zeta.
  rewrite (lookup_from_keys
             (fun l => percentage
                         (Z.of_nat (count_occ string_dec
                                      (Deque.items (emotion_history d)) l))
                         (Z.of_nat (length (Deque.items (emotion_history d)))))).
  destruct (mem_label label (first_occurrences
                               (Deque.items (emotion_history d)))) eqn:E1;
    destruct (mem_label label (Deque.items (emotion_history d))) eqn:E2;
    try reflexivity; exfalso.
  - apply (proj1 (mem_label_In _ _)), (proj1 (In_first_occurrences _ _)),
      (proj2 (mem_label_In _ _)) in E1. congruence.
  - apply (proj1 (mem_label_In _ _)), (proj2 (In_first_occurrences _ _)),
      (proj2 (mem_label_In _ _)) in E2. congruence.
Qed.

(** X3. The percentage of a label does not depend on the order of the
    history: two detectors whose histories are permutations of one
    another give every label the same value (or none). *)
Theorem get_emotion_stats_order_independent (d d' : EmotionDetector) :
  Permutation (Deque.items (emotion_history d))
              (Deque.items (emotion_history d')) ->
  forall label,
    Dict.lookup label (get_emotion_stats d) =
    Dict.lookup label (get_emotion_stats d').
Proof.
  intros HP label. rewrite !stats_lookup.
  rewrite (Permutation_length HP).
  rewrite (proj1 (Permutation_count_occ string_dec _ _) HP label).
  destruct (mem_label label (Deque.items (emotion_history d))) eqn:E1;
    destruct (mem_label label (Deque.items (emotion_history d'))) eqn:E2;
    try reflexivity; exfalso.
  - apply (proj1 (mem_label_In _ _)) in E1.
    apply (Permutation_in _ HP), (proj2 (mem_label_In _ _)) in E1.
    congruence.
  - apply (proj1 (mem_label_In _ _)) in E2.
    apply (Permutation_in _ (Permutation_sym HP)),
      (proj2 (mem_label_In _ _)) in E2.
    congruence.
Qed.

Lemma get_emotion_stats_order_independent_witness :
  let d  := record_all [(Some "happy"%string, 1%Z); (Some "sad"%string, 2%Z);
                        (Some "happy"%string, 3%Z)] EmotionDetector_init in
  Permutation (Deque.items (emotion_history d))
              (Deque.items (emotion_history (detector Sample.three_labels))) /\
  Dict.lookup "sad"%string (get_emotion_stats d) =
  Dict.lookup "sad"%string (get_emotion_stats (detector Sample.three_labels)).
Proof.
  intros d.
  assert (HP : Permutation (Deque.items (emotion_history d))
                 (Deque.items (emotion_history (detector Sample.three_labels)))).
  { apply perm_skip. apply perm_swap. }
  split; [exact HP|].
  apply (get_emotion_stats_order_independent d _ HP).
Defined.

Lemma over_pairs_spec (check : nat -> nat -> bool) (count total : Z) :
  over_pairs check = true ->
  (1 <= count <= total)%Z -> (total <= 100)%Z ->
  check (Z.to_nat total) (Z.to_nat count) = true.
Proof.
  intros T Hc Ht. unfold over_pairs in T.
  rewrite forallb_forall in T.
  specialize (T (Z.to_nat total)).
  rewrite forallb_forall in T.
  apply T; apply in_seq; lia.
Qed.

Lemma percentage_in_range_ok : over_pairs percentage_in_range = true.
Proof. vm_compute. reflexivity. Qed.

Lemma percentage_shown_exactly_ok : over_pairs percentage_shown_exactly = true.
Proof. vm_compute. reflexivity. Qed.

Lemma spec_float_eqb_eq f g : spec_float_eqb f g = true -> f = g.
Proof.
  destruct f as [s|s| |s m e], g as [s'|s'| |s' m' e']; simpl;
    try discriminate; try reflexivity.
  - intros H. apply Bool.eqb_prop in H. congruence.
  - intros H. apply Bool.eqb_prop in H. congruence.
  - intros H. apply andb_prop in H. destruct H as [H He].
    apply andb_prop in H. destruct H as [Hs Hm].
    apply Bool.eqb_prop in Hs. apply Pos.eqb_eq in Hm. apply Z.eqb_eq in He.
    congruence.
Qed.

Lemma percentage_whole_ok : forallb percentage_whole (seq 1 100) = true.
Proof. vm_compute. reflexivity. Qed.

Lemma count_occ_bounds (h : list string) label :
  In label h ->
  (1 <= Z.of_nat (count_occ string_dec h label) <= Z.of_nat (length h))%Z.
Proof.
  intros Hin.
  assert (0 < count_occ string_dec h label) by (apply count_occ_In; exact Hin).
  pose proof (count_occ_bound string_dec label h). lia.
Qed.

(** X4. Every percentage that [get_emotion_stats] reports for a
    history of at most 100 labels is a float greater than 0 and at
    most 100. *)
Theorem percentages_between_0_and_100 (d : EmotionDetector) :
  Deque.len (emotion_history d) <= 100 ->
  forall label v,
    Dict.lookup label (get_emotion_stats d) = Some v ->
    (0 < Float64.to_Q v /\ Float64.to_Q v <= 100)%Q.
Proof.
  intros Hlen label v Hl. rewrite stats_lookup in Hl.
  destruct (mem_label label (Deque.items (emotion_history d))) eqn:E;
    [|discriminate].
  injection Hl as <-. apply (proj1 (mem_label_In _ _)) in E.
  pose proof (count_occ_bounds _ _ E) as Hc.
  unfold Deque.len in Hlen.
  pose proof (over_pairs_spec percentage_in_range _ _
                percentage_in_range_ok Hc ltac:(lia)) as T.
  unfold percentage_in_range in T. rewrite !Z2Nat.id in T by lia.
  apply andb_prop in T. destruct T as [T1 T2].
  apply Qle_bool_iff in T1. split; [|exact T1].
  apply negb_true_iff in T2. apply Qnot_le_lt. intros Hle.
  apply Qle_bool_iff in Hle. congruence.
Qed.

Lemma percentages_between_0_and_100_witness :
  Deque.len (emotion_history (detector Sample.three_labels)) <= 100 /\
  (0 < Float64.to_Q (percentage 1 3) /\ Float64.to_Q (percentage 1 3) <= 100)%Q.
Proof.
  assert (Hlen : Deque.len (emotion_history (detector Sample.three_labels))
                 <= 100) by (vm_compute; lia).
  split; [exact Hlen|].
  apply (percentages_between_0_and_100 (detector Sample.three_labels) Hlen
           "sad"%string).
  reflexivity.
Defined.

Lemma filter_none {A : Type} (p : A -> bool) (l : list A) :
  (forall y, In y l -> p y = false) -> filter p l = [].
Proof.
  induction l as [|x l IH]; intros H; simpl; [reflexivity|].
  rewrite (H x (or_introl eq_refl)). apply IH.
  intros y Hy. apply H. right. exact Hy.
Qed.

Lemma first_occurrences_all_equal label (h : list string) :
  h <> [] -> Forall (eq label) h -> first_occurrences h = [label].
Proof.
  intros Hne Hall. destruct h as [|x l]; [contradiction|].
  inversion Hall as [|? ? Hx Hl]; subst. simpl. f_equal.
  apply filter_none.
  intros y Hy. apply (proj1 (In_first_occurrences _ _)) in Hy.
  rewrite Forall_forall in Hl. rewrite <- (Hl y Hy).
  rewrite String.eqb_refl. reflexivity.
Qed.

Lemma count_occ_all_equal label (h : list string) :
  Forall (eq label) h -> count_occ string_dec h label = length h.
Proof.
  induction 1 as [|x l Hx Hl IH]; simpl; [reflexivity|].
  subst x. destruct (string_dec label label); [|contradiction].
  rewrite IH. reflexivity.
Qed.

(** X5. When every label of a non-empty history of at most 100 labels
    is the same, [get_emotion_stats] returns that single label with
    exactly the float [100.0], and the text that [stop_detection]
    builds from it reads "label: 100.00%". *)
Theorem single_label_is_100_percent (d : EmotionDetector) (label : string) :
  Deque.items (emotion_history d) <> [] ->
  Forall (eq label) (Deque.items (emotion_history d)) ->
  Deque.len (emotion_history d) <= 100 ->
  get_emotion_stats d = [(label, float_100)] /\
  stats_text (get_emotion_stats d) =
  ("Emotion statistics:" ++ newline ++ label ++ ": 100.00%")%string.
Proof.
  intros Hne Hall Hlen.
  assert (Hs : get_emotion_stats d = [(label, float_100)]).
  { rewrite (get_emotion_stats_entries d). cbv zeta.
    rewrite (first_occurrences_all_equal label _ Hne Hall). simpl.
    rewrite (count_occ_all_equal label _ Hall).
    unfold Deque.len in Hlen.
    set (n := length (Deque.items (emotion_history d))) in *.
    assert (Hn : 1 <= n).
    { subst n. destruct (Deque.items (emotion_history d));
        [contradiction|simpl; lia]. }
    pose proof percentage_whole_ok as T. rewrite forallb_forall in T.
    specialize (T n ltac:(apply in_seq; lia)).
    apply spec_float_eqb_eq in T. rewrite T. reflexivity. }
  split; [exact Hs|]. rewrite Hs. reflexivity.
Qed.

Lemma single_label_is_100_percent_witness :
  Deque.items (emotion_history Fixture.happy_twice) <> [] /\
  Forall (eq "happy"%string) (Deque.items (emotion_history Fixture.happy_twice)) /\
  Deque.len (emotion_history Fixture.happy_twice) <= 100 /\
  get_emotion_stats Fixture.happy_twice = [("happy"%string, float_100)].
Proof.
  assert (H1 : Deque.items (emotion_history Fixture.happy_twice) <> [])
    by discriminate.
  assert (H2 : Forall (eq "happy"%string)
                 (Deque.items (emotion_history Fixture.happy_twice)))
    by (repeat constructor).
  assert (H3 : Deque.len (emotion_history Fixture.happy_twice) <= 100)
    by (vm_compute; lia).
  split; [exact H1|]. split; [exact H2|]. split; [exact H3|].
  apply (proj1 (single_label_is_100_percent Fixture.happy_twice
                  "happy"%string H1 H2 H3)).
Defined.

(** X6. For a history of 1 to 100 labels, the text that
    [stop_detection] builds has, after its heading, one line per
    distinct label in order of first occurrence, and the number on the
    line of a label is the exact percentage [100 * count / total]
    rounded to two decimals, ties to even: the rounding of the float
    arithmetic never shows. *)
Theorem stats_text_shows_exact_percentages (d : EmotionDetector) :
  let h := Deque.items (emotion_history d) in
  h <> [] ->
  Deque.len (emotion_history d) <= 100 ->
  stats_text (get_emotion_stats d) =
  ("Emotion statistics:" ++ newline ++
   join newline
     (map (fun label =>
             label ++ ": " ++
             two_decimals
               (round_half_even
                  (10000 * Z.of_nat (count_occ string_dec h label))
                  (Z.of_nat (length h))) ++ "%")
          (first_occurrences h)))%string.
Proof.
  intros h Hne Hlen. unfold stats_text.
  rewrite (get_emotion_stats_entries d). cbv zeta. fold h.
  rewrite map_map. cbn [fst snd].
  apply f_equal, f_equal, f_equal.
  apply map_ext_in. intros label Hin.
  apply (proj1 (In_first_occurrences _ _)) in Hin.
  pose proof (count_occ_bounds _ _ Hin) as Hc.
  unfold Deque.len in Hlen. fold h in Hlen.
  pose proof (over_pairs_spec percentage_shown_exactly _ _
                percentage_shown_exactly_ok Hc ltac:(lia)) as T.
  unfold percentage_shown_exactly in T. rewrite !Z2Nat.id in T by lia.
  apply String.eqb_eq in T. rewrite T. reflexivity.
Qed.

Lemma stats_text_shows_exact_percentages_witness :
  Deque.items (emotion_history (detector Sample.three_labels)) <> [] /\
  Deque.len (emotion_history (detector Sample.three_labels)) <= 100 /\
  stats_text (get_emotion_stats (detector Sample.three_labels)) =
  ("Emotion statistics:" ++ newline ++ "happy: 66.67%" ++ newline
   ++ "sad: 33.33%")%string.
Proof.
  assert (H1 : Deque.items (emotion_history (detector Sample.three_labels))
               <> []) by discriminate.
  assert (H2 : Deque.len (emotion_history (detector Sample.three_labels))
               <= 100) by (vm_compute; lia).
  split; [exact H1|]. split; [exact H2|].
  rewrite (stats_text_shows_exact_percentages
             (detector Sample.three_labels) H1 H2).
  vm_compute. reflexivity.
Defined.

Lemma exact_percentage_ge_1 (k n : Z) :
  (1 <= k)%Z -> (0 < n <= 100)%Z -> (1 <= exact_percentage k n)%Q.
Proof.
  intros Hk Hn. unfold exact_percentage. apply Qle_shift_div_l.
  - change 0%Q with (inject_Z 0). rewrite <- Zlt_Qlt. lia.
  - rewrite Qmult_1_l. change 100%Q with (inject_Z 100).
    rewrite <- inject_Z_mult, <- Zle_Qle. lia.
Qed.

(** X17. Within one result of [get_emotion_stats] on a history of at
    most 100 labels, the percentages are ordered like the counts: a
    label that occurs more often has a strictly larger percentage, and
    labels that occur equally often have the same float. *)
Theorem percentages_ordered_like_counts (d : EmotionDetector)
    (l1 l2 : string) (v1 v2 : spec_float) :
  Deque.len (emotion_history d) <= 100 ->
  Dict.lookup l1 (get_emotion_stats d) = Some v1 ->
  Dict.lookup l2 (get_emotion_stats d) = Some v2 ->
  let count := count_occ string_dec (Deque.items (emotion_history d)) in
  (count l1 < count l2 -> (Float64.to_Q v1 < Float64.to_Q v2)%Q) /\
  (count l1 = count l2 -> v1 = v2).
Proof.
  intros Hlen H1 H2 count. rewrite stats_lookup in H1, H2.
  destruct (mem_label l1 (Deque.items (emotion_history d))) eqn:E1;
    [|discriminate].
  destruct (mem_label l2 (Deque.items (emotion_history d))) eqn:E2;
    [|discriminate].
  injection H1 as <-. injection H2 as <-. fold (count l1) (count l2).
  apply (proj1 (mem_label_In _ _)) in E1, E2.
  pose proof (count_occ_bounds _ _ E1) as B1.
  pose proof (count_occ_bounds _ _ E2) as B2.
  fold (count l1) in B1. fold (count l2) in B2.
  unfold Deque.len in Hlen.
  set (n := Z.of_nat (length (Deque.items (emotion_history d)))) in *.
  split.
  - intros Hlt.
    destruct (percentage_close_ok _ _ B1 ltac:(lia)) as [_ C1].
    destruct (percentage_close_ok _ _ B2 ltac:(lia)) as [_ C2].
    apply Qabs_Qle_condition in C1, C2.
    pose proof (exact_percentage_plus (Z.of_nat (count l1))
                  (Z.of_nat (count l2) - Z.of_nat (count l1)) n) as Hsum.
    replace (Z.of_nat (count l1) + (Z.of_nat (count l2) - Z.of_nat (count l1)))%Z
      with (Z.of_nat (count l2)) in Hsum by lia.
    pose proof (exact_percentage_ge_1
                  (Z.of_nat (count l2) - Z.of_nat (count l1)) n
                  ltac:(lia) ltac:(lia)) as Hgap.
    assert (Heps : (percentage_eps <= 1 # 4)%Q) by (vm_compute; discriminate).
    destruct C1 as [C1a C1b]. destruct C2 as [C2a C2b].
    lra.
  - intros Heq. rewrite Heq. reflexivity.
Qed.

Lemma percentages_ordered_like_counts_witness :
  Deque.len (emotion_history (detector Sample.three_labels)) <= 100 /\
  (Float64.to_Q (percentage 1 3) < Float64.to_Q (percentage 2 3))%Q.
Proof.
  assert (Hlen : Deque.len (emotion_history (detector Sample.three_labels))
                 <= 100) by (vm_compute; lia).
  split; [exact Hlen|].
  apply (proj1 (percentages_ordered_like_counts
                  (detector Sample.three_labels) "sad"%string "happy"%string
                  (percentage 1 3) (percentage 2 3) Hlen eq_refl eq_refl)).
  vm_compute. lia.
Defined.

(* ===================================================================== *)
(** * Further properties of the adapter and of [update_frame] *)
(* ===================================================================== *)

(** What the [try] body can return. *)
Lemma detect_emotion_try_returns E frame face_box emotion confidence :
  detect_emotion_try E frame = Return (face_box, emotion, confidence) ->
  (face_box, emotion, confidence) = nothing_detected \/
  exists box scores,
    face_box = Some box /\ confidence = scores_get emotion scores.
Proof.
  intros H.
  destruct (cvtColor E frame) as [gray|e0] eqn:Hg.
  2:{ unfold detect_emotion_try in H. rewrite Hg in H. discriminate. }
  destruct (detectMultiScale E gray) as [faces|e0] eqn:Hf.
  2:{ unfold detect_emotion_try in H. rewrite Hg in H. simpl in H.
      rewrite Hf in H. discriminate. }
  destruct faces as [|[[[x y] w] h] rest].
  { rewrite (detect_emotion_try_no_face E frame gray Hg Hf) in H.
    injection H as <- <- <-. left. reflexivity. }
  rewrite (detect_emotion_try_face E frame gray x y w h rest Hg Hf) in H.
  destruct (DeepFace_analyze E (crop frame x y w h)) as [results|e0];
    [|discriminate].
  destruct results as [|r others]; [discriminate|].
  simpl in H. unfold getitem_emotion in H.
  destruct (key_emotion r) as [scores|]; [|discriminate].
  simpl in H. injection H as <- <- <-.
  right. exists (x, y, w, h), scores. split; reflexivity.
Qed.

Lemma scores_get_float emotion scores s :
  scores_get emotion scores = PyFloat s ->
  exists label, emotion = Some label /\ Dict.lookup label scores = Some s.
Proof.
  unfold scores_get. destruct emotion as [label|]; [|discriminate].
  destruct (Dict.lookup label scores) as [s'|] eqn:E; [|discriminate].
  intros [= ->]. exists label. split; [reflexivity|exact E].
Qed.

(** X7. Whatever the collaborators do, a result of [detect_emotion]
    has one of two shapes.  Without a face box there is no label and
    the confidence is the integer 0; a float confidence comes only
    with a face box and a label.  At most one line is printed, and
    when one is, the result is [(None, None, 0)]. *)
Theorem detect_emotion_result_shape (E : Collaborators) (frame : Frame)
    (printed : list string) (face_box : option Box)
    (emotion : option string) (confidence : PyNum) :
  detect_emotion E frame = (printed, Return (face_box, emotion, confidence)) ->
  (face_box = None -> emotion = None /\ confidence = PyInt 0) /\
  (forall s, confidence = PyFloat s ->
     face_box <> None /\ exists label, emotion = Some label) /\
  (emotion <> None -> face_box <> None) /\
  length printed <= 1 /\
  (printed <> [] -> (face_box, emotion, confidence) = nothing_detected).
Proof.
  intros H.
  destruct (detect_emotion_outcome E frame)
    as [(r & Ht & Hd)|[(e' & _ & _ & Hd)|(e' & _ & _ & Hd)]];
    rewrite Hd in H; try discriminate.
  - injection H as <- ->.
    destruct (detect_emotion_try_returns E frame _ _ _ Ht)
      as [[= -> -> ->]|(box & scores & -> & ->)].
    + repeat split; try discriminate; simpl; try lia; try congruence.
    + split; [discriminate|]. split; [|split; [discriminate|split]].
      * intros s Hs. split; [discriminate|].
        destruct (scores_get_float _ _ _ Hs) as (label & Hl & _).
        exists label. exact Hl.
      * simpl. lia.
      * intros Hp. contradiction.
  - injection H as <- <- <- <-.
    repeat split; try discriminate; simpl; try lia; try congruence.
Qed.

Lemma detect_emotion_result_shape_witness :
  detect_emotion (Sample.sees Sample.unlabelled) Sample.frame =
    ([], Return (Some Sample.box, None, PyInt 0)) /\
  (forall s, PyInt 0 = PyFloat s ->
     Some Sample.box <> None /\ exists label, @None string = Some label).
Proof.
  assert (H : detect_emotion (Sample.sees Sample.unlabelled) Sample.frame =
              ([], Return (Some Sample.box, None, PyInt 0))) by reflexivity.
  split; [exact H|].
  apply (proj1 (proj2 (detect_emotion_result_shape _ _ _ _ _ _ H))).
Defined.

Lemma slice_length {A : Type} (a n : nat) (l : list A) :
  length (slice a (a + n) l) = Nat.min n (length l - a).
Proof.
  unfold slice. rewrite length_firstn, length_skipn.
  replace (a + n - a) with n by lia. reflexivity.
Qed.

Lemma Forall_slice {A : Type} (P : A -> Prop) (a b : nat) (l : list A) :
  Forall P l -> Forall P (slice a b l).
Proof.
  unfold slice. intros H.
  assert (Hs : Forall P (skipn a l)).
  { clear b. revert a. induction H as [|x l Hx Hl IH]; intros [|a]; simpl;
      auto. }
  generalize (b - a). clear H.
  induction Hs as [|x r Hx Hr IH]; intros [|n]; simpl; auto.
Qed.

(** X8. The crop [frame[y:y+h, x:x+w]] never fails and never exceeds
    the region: it has [min h (rows - y)] rows, each of at most [w]
    pixels, and exactly [min w (width - x)] when the frame is
    rectangular.  A region that starts below the last row, or has no
    height, gives the empty image. *)
Theorem crop_dimensions (frame : Frame) (x y w h : nat) :
  length (crop frame x y w h) = Nat.min h (length frame - y) /\
  Forall (fun row => length row <= w) (crop frame x y w h) /\
  (forall width,
     Forall (fun row => length row = width) frame ->
     Forall (fun row => length row = Nat.min w (width - x))
            (crop frame x y w h)) /\
  (length frame <= y \/ h = 0 -> crop frame x y w h = []).
Proof.
  unfold crop. split; [|split; [|split]].
  - rewrite length_map. apply slice_length.
  - apply Forall_map, Forall_forall. intros row _.
    rewrite slice_length. lia.
  - intros width Hw. apply Forall_map.
    assert (Hs : Forall (fun row : list Pixel => length row = width)
                   (slice y (y + h) frame)).
    { apply Forall_slice, Hw. }
    eapply Forall_impl; [|exact Hs]. simpl. intros row Hr.
    rewrite slice_length, Hr. reflexivity.
  - intros Hout.
    assert (Hl : length (slice y (y + h) frame) = 0)
      by (rewrite slice_length; lia).
    destruct (slice y (y + h) frame); [reflexivity|discriminate].
Qed.

Lemma crop_dimensions_witness :
  Forall (fun row => length row = 4) Sample.frame /\
  Forall (fun row => length row = 2) (crop Sample.frame 1 1 2 2) /\
  crop Sample.frame 1 4 2 2 = [].
Proof.
  assert (Hw : Forall (fun row : list Pixel => length row = 4) Sample.frame)
    by (repeat constructor).
  split; [exact Hw|]. split.
  - apply (proj1 (proj2 (proj2 (crop_dimensions Sample.frame 1 1 2 2)))
             4 Hw).
  - apply (proj2 (proj2 (proj2 (crop_dimensions Sample.frame 1 4 2 2)))).
    left. simpl. lia.
Defined.

(** The three outcomes of [update_frame] on a frame that was read. *)
Lemma update_frame_read E D frame shown :
  update_frame E D (true, frame) shown =
  match detect_emotion E (flip_horizontal frame) with
  | (printed, Return (face_box, emotion, confidence)) =>
      (printed,
       {| camera_frame :=
            Some (BGR2RGB (draw_overlay D (flip_horizontal frame)
                                        face_box emotion));
          rescheduled := true |}, None)
  | (printed, Raise e) =>
      (printed, {| camera_frame := shown; rescheduled := false |}, Some e)
  end.
Proof.
  unfold update_frame.
  destruct (detect_emotion E (flip_horizontal frame)) as [printed [r|e]];
    [destruct r as [[fb em] cf]|]; reflexivity.
Qed.

(** X9. [update_frame] asks for its next call exactly when no
    exception leaves it.  After a failed read it does, and shows what
    it showed.  After a successful read it does, and shows a new
    image, whenever the steps of detection raise only instances of
    [Exception]: a failing detection does not stop the video.  When an
    exception does leave it, the image stays and no next call is
    asked for. *)
Theorem update_frame_keeps_running (E : Collaborators) (D : Drawing)
    (read : bool * Frame) (shown : option Frame) :
  let screen := snd (fst (update_frame E D read shown)) in
  let exc := snd (update_frame E D read shown) in
  (rescheduled screen = true <-> exc = None) /\
  (fst read = false ->
   update_frame E D read shown =
   ([], {| camera_frame := shown; rescheduled := true |}, None)) /\
  (fst read = true ->
   (forall e, step_raises E (flip_horizontal (snd read)) e ->
              isinstance_Exception e = true) ->
   exc = None /\ rescheduled screen = true /\
   exists image, camera_frame screen = Some image) /\
  (forall e, exc = Some e ->
     isinstance_Exception e = false /\
     step_raises E (flip_horizontal (snd read)) e /\
     camera_frame screen = shown /\ rescheduled screen = false).
Proof.
  destruct read as [[|] frame]; cbv zeta.
  - rewrite update_frame_read. simpl fst. simpl snd at 1.
    destruct (detect_emotion_outcome E (flip_horizontal frame))
      as [(r & Ht & Hd)|[(e' & Ht & He & Hd)|(e' & Ht & He & Hd)]];
      rewrite Hd.
    + destruct r as [[fb em] cf]. simpl.
      split; [split; reflexivity|]. split; [discriminate|].
      split; [intros; repeat split; eauto|discriminate].
    + simpl. split; [split; reflexivity|]. split; [discriminate|].
      split; [intros; repeat split; eauto|discriminate].
    + simpl. split; [split; discriminate|]. split; [discriminate|]. split.
      * intros _ Hall. apply detect_emotion_try_raises, Hall in Ht.
        congruence.
      * intros e [= <-]. repeat split; try assumption.
        apply detect_emotion_try_raises, Ht.
  - simpl. split; [split; reflexivity|]. split; [reflexivity|].
    split; discriminate.
Qed.

Lemma update_frame_keeps_running_witness :
  fst (true, Sample.frame) = true /\
  (forall e, step_raises (Sample.fails_with Sample.model_error)
               (flip_horizontal Sample.frame) e ->
             isinstance_Exception e = true) /\
  rescheduled
    (snd (fst (update_frame (Sample.fails_with Sample.model_error)
                 Fixture.plain (true, Sample.frame) None))) = true.
Proof.
  assert (Hall : forall e,
             step_raises (Sample.fails_with Sample.model_error)
               (flip_horizontal Sample.frame) e ->
             isinstance_Exception e = true).
  { intros e He. apply detect_emotion_try_raises in He.
    vm_compute in He. injection He as <-. reflexivity. }
  split; [reflexivity|]. split; [exact Hall|].
  apply (proj1 (proj2 (proj2 (update_frame_keeps_running
                                (Sample.fails_with Sample.model_error)
                                Fixture.plain (true, Sample.frame) None)))
           eq_refl Hall).
Defined.

(** X10. When nothing is detected, because no face is found or because
    a failure of detection was caught, [update_frame] calls no drawing
    function: whatever they are, it shows the mirrored frame with its
    channels swapped. *)
Theorem update_frame_plain_when_nothing_detected (E : Collaborators)
    (D : Drawing) (frame : Frame) (shown : option Frame) :
  ((exists gray, cvtColor E (flip_horizontal frame) = Return gray /\
                 detectMultiScale E gray = Return []) \/
   (exists e, step_raises E (flip_horizontal frame) e /\
              isinstance_Exception e = true)) ->
  snd (fst (update_frame E D (true, frame) shown)) =
  {| camera_frame := Some (BGR2RGB (flip_horizontal frame));
     rescheduled := true |} /\
  snd (update_frame E D (true, frame) shown) = None.
Proof.
  intros H. rewrite update_frame_read.
  assert (Hd : snd (detect_emotion E (flip_horizontal frame)) =
               Return nothing_detected).
  { destruct H as [(gray & Hg & Hf)|(e & Hs & He)].
    - unfold detect_emotion.
      rewrite (detect_emotion_try_no_face E _ gray Hg Hf). reflexivity.
    - apply detect_emotion_try_raises in Hs.
      unfold detect_emotion. rewrite Hs, He. reflexivity. }
  destruct (detect_emotion E (flip_horizontal frame)) as [printed r].
  simpl in Hd. subst r. split; reflexivity.
Qed.

Lemma update_frame_plain_when_nothing_detected_witness :
  (exists gray,
     cvtColor Sample.sees_nothing (flip_horizontal Sample.frame) = Return gray /\
     detectMultiScale Sample.sees_nothing gray = Return []) /\
  snd (fst (update_frame Sample.sees_nothing Fixture.plain
              (true, Sample.frame) None)) =
  {| camera_frame := Some (BGR2RGB (flip_horizontal Sample.frame));
     rescheduled := true |}.
Proof.
  assert (H : exists gray,
             cvtColor Sample.sees_nothing (flip_horizontal Sample.frame)
             = Return gray /\
             detectMultiScale Sample.sees_nothing gray = Return []).
  { eexists. split; reflexivity. }
  split; [exact H|].
  apply (proj1 (update_frame_plain_when_nothing_detected
                  Sample.sees_nothing Fixture.plain Sample.frame None
                  (or_introl H))).
Defined.

(* ===================================================================== *)
(** * Further properties of the session and its threads *)
(* ===================================================================== *)

Section ThreadTableMore.
Context {A : Type}.
Implicit Types (l : list A) (x y : A) (i j : nat).

Lemma nth_error_set_nth_ne i j x l :
  i <> j -> nth_error (set_nth i x l) j = nth_error l j.
Proof.
  revert i j. induction l as [|z l IH]; intros [|i] [|j] H; simpl;
    try reflexivity; try contradiction.
  apply IH. congruence.
Qed.

Lemma set_nth_set_nth i x y l : set_nth i x (set_nth i y l) = set_nth i x l.
Proof.
  revert i. induction l as [|z l IH]; intros [|i]; simpl;
    try reflexivity. rewrite IH. reflexivity.
Qed.

Lemma set_nth_same i x l : nth_error l i = Some x -> set_nth i x l = l.
Proof.
  revert i. induction l as [|z l IH]; intros [|i] H; simpl in *;
    try discriminate.
  - congruence.
  - rewrite (IH i H). reflexivity.
Qed.

Lemma nth_error_new l x : nth_error (l ++ [x]) (length l) = Some x.
Proof.
  rewrite nth_error_app2 by lia. rewrite Nat.sub_diag. reflexivity.
Qed.

Lemma nth_error_old l x i y :
  nth_error l i = Some y -> nth_error (l ++ [x]) i = Some y.
Proof.
  intros H. rewrite nth_error_app1; [exact H|].
  apply nth_error_Some. congruence.
Qed.

(** Replacing an entry moves the count of a predicate by its value on
    the old and on the new entry. *)
Lemma count_set_nth (p : A -> bool) i x y l :
  nth_error l i = Some y ->
  length (filter p (set_nth i x l)) + (if p y then 1 else 0) =
  length (filter p l) + (if p x then 1 else 0).
Proof.
  revert i. induction l as [|z l IH]; intros [|i] H; simpl in *;
    try discriminate.
  - injection H as ->. destruct (p x), (p y); simpl; lia.
  - specialize (IH i H). destruct (p z); simpl; lia.
Qed.

End ThreadTableMore.

Lemma with_threads_same a : with_threads a (threads a) = a.
Proof. destruct a. reflexivity. Qed.

(** A step of a thread that stands at [pc]. *)
Lemma step_at E a tid w pc :
  nth_error (threads a) tid = Some pc ->
  step E a (Thread tid w) =
  with_threads (snd (run_detection_step E w pc a))
               (set_nth tid (fst (run_detection_step E w pc a)) (threads a)).
Proof.
  intros H. rewrite (step_thread E a tid w pc H). cbv zeta.
  destruct (run_detection_step_flag E w pc a) as [_ Ht].
  rewrite Ht. reflexivity.
Qed.

Lemma step_out_of_range E a tid w :
  nth_error (threads a) tid = None -> step E a (Thread tid w) = a.
Proof. intros H. unfold step. rewrite H. reflexivity. Qed.

Lemma run_app E a acts acts' :
  run E a (acts ++ acts') = run E (run E a acts) acts'.
Proof. unfold run. apply fold_left_app. Qed.

Lemma observation_some E w o :
  observation E w = Some o ->
  exists frame face_box confidence,
    cap_read w = (true, frame) /\
    snd (detect_emotion E frame) = Return (face_box, fst o, confidence) /\
    snd o = now w.
Proof.
  unfold observation.
  destruct (cap_read w) as [[|] frame] eqn:Hr; [|discriminate].
  destruct (snd (detect_emotion E frame)) as [[[fb em] cf]|e] eqn:Hd;
    [|discriminate].
  intros [= <-]. exists frame, fb, cf.
  split; [reflexivity|]. split; [exact Hd|reflexivity].
Qed.

(** One full iteration of a thread in an active session. *)
Lemma full_iteration E a tid w o :
  detection_active a = true ->
  nth_error (threads a) tid = Some AtWhile ->
  observation E w = Some o ->
  run E a (iteration tid w) =
  with_detector a (run_detection_record (fst o) (snd o) (detector a)).
Proof.
  intros Ha Hn Ho.
  destruct (observation_some E w o Ho) as (frame & fb & cf & Hr & Hd & Hnow).
  unfold iteration, run. cbn [fold_left].
  rewrite (step_at E a tid w AtWhile Hn).
  cbn [run_detection_step fst snd]. rewrite Ha. cbn [fst snd].
  set (a1 := with_threads a (set_nth tid AtRead (threads a))).
  assert (H1 : nth_error (threads a1) tid = Some AtRead)
    by (apply (nth_error_set_nth tid AtRead (threads a) AtWhile Hn)).
  rewrite (step_at E a1 tid w AtRead H1).
  cbn [run_detection_step]. rewrite Hr. cbn [negb fst snd].
  unfold a1 at 2. cbn [threads with_threads]. rewrite set_nth_set_nth.
  set (a2 := with_threads a1 (set_nth tid (AtDetect frame) (threads a))).
  assert (H2 : nth_error (threads a2) tid = Some (AtDetect frame))
    by (apply (nth_error_set_nth tid _ (threads a) AtWhile Hn)).
  rewrite (step_at E a2 tid w _ H2).
  cbn [run_detection_step]. rewrite Hd. cbn [fst snd].
  unfold a2 at 2. cbn [threads with_threads]. rewrite set_nth_set_nth.
  set (a3 := with_threads a2 (set_nth tid (AtRecord (fst o)) (threads a))).
  assert (H3 : nth_error (threads a3) tid = Some (AtRecord (fst o)))
    by (apply (nth_error_set_nth tid _ (threads a) AtWhile Hn)).
  rewrite (step_at E a3 tid w _ H3).
  cbn [run_detection_step fst snd].
  unfold a3, a2, a1, with_threads, with_detector.
  cbn [detector detection_active emotion_stats_label threads].
  rewrite set_nth_set_nth, (set_nth_same tid AtWhile (threads a) Hn).
  rewrite Hnow. reflexivity.
Qed.

Lemma iterations E tid ws : forall a,
  detection_active a = true ->
  nth_error (threads a) tid = Some AtWhile ->
  Forall (fun w => observation E w <> None) ws ->
  run E a (flat_map (iteration tid) ws) =
  with_detector a (record_all (observations E ws) (detector a)).
Proof.
  induction ws as [|w ws IH]; intros a Ha Hn Hall.
  - simpl. destruct a. reflexivity.
  - inversion Hall as [|? ? Hw Hws]; subst.
    destruct (observation E w) as [o|] eqn:Ho; [|contradiction].
    cbn [flat_map]. rewrite run_app, (full_iteration E a tid w o Ha Hn Ho).
    rewrite IH; [|exact Ha|exact Hn|exact Hws].
    unfold observations. cbn [flat_map]. rewrite Ho. reflexivity.
Qed.

(** X11. A whole session driven by one thread: from any inactive
    state, start, any number of full iterations of the new thread
    (test, read, detect, record) whose reads succeed and whose
    detections return, then stop.  The history is then that of the
    record blocks of those iterations on a cleared detector, hence the
    last 100 labels detected in this session, and the label of the
    window shows their statistics when any label was recorded and is
    left as it was otherwise. *)
Theorem session_end_to_end (E : Collaborators) (a0 : EmotionDetectionApp)
    (ws : list World) :
  detection_active a0 = false ->
  capacity_100 (detector a0) ->
  Forall (fun w => observation E w <> None) ws ->
  let tid := length (threads a0) in
  let a := run E a0 (Start :: flat_map (iteration tid) ws ++ [Stop]) in
  let d := record_all (observations E ws)
                      (reset_emotion_history (detector a0)) in
  detector a = d /\
  detection_active a = false /\
  Deque.items (emotion_history d) =
  lastn 100 (map fst (recorded (observations E ws))) /\
  emotion_stats_label a =
  (if Dict.truthy (get_emotion_stats d) then stats_text (get_emotion_stats d)
   else emotion_stats_label a0).
Proof.
  intros Ha Hc Hall tid a d.
  assert (Hrun : a = snd (stop_detection
                            (with_detector (start_detection a0) d))).
  { subst a.
    change (run E a0 (Start :: flat_map (iteration tid) ws ++ [Stop]))
      with (run E (start_detection a0)
                (flat_map (iteration tid) ws ++ [Stop])).
    assert (Hs : start_detection a0 =
                 {| detector := reset_emotion_history (detector a0);
                    detection_active := true;
                    emotion_stats_label := emotion_stats_label a0;
                    threads := threads a0 ++ [AtWhile] |})
      by (unfold start_detection; rewrite Ha; reflexivity).
    rewrite run_app.
    rewrite (iterations E tid ws (start_detection a0)).
    - rewrite Hs. reflexivity.
    - rewrite Hs. reflexivity.
    - rewrite Hs. simpl. apply nth_error_new.
    - exact Hall. }
  rewrite Hrun. unfold start_detection. rewrite Ha. simpl.
  repeat split.
  apply (record_all_history (observations E ws)
           (reset_emotion_history (detector a0)) []);
    [apply Hc|reflexivity].
Qed.

Lemma session_end_to_end_witness :
  detection_active EmotionDetectionApp_init = false /\
  capacity_100 (detector EmotionDetectionApp_init) /\
  Forall (fun w => observation (Sample.sees Sample.happy) w <> None)
         [Sample.tick] /\
  emotion_stats_label Fixture.stopped_with_happy =
  ("Emotion statistics:" ++ newline ++ "happy: 100.00%")%string.
Proof.
  assert (Hc : capacity_100 (detector EmotionDetectionApp_init))
    by (split; reflexivity).
  assert (Hall : Forall (fun w => observation (Sample.sees Sample.happy) w
                                  <> None) [Sample.tick])
    by (repeat constructor; discriminate).
  split; [reflexivity|]. split; [exact Hc|]. split; [exact Hall|].
  destruct (session_end_to_end (Sample.sees Sample.happy)
              EmotionDetectionApp_init [Sample.tick] eq_refl Hc Hall)
    as (_ & _ & _ & Hlabel).
  etransitivity; [exact Hlabel|]. vm_compute. reflexivity.
Defined.

(** X12. A failed [cap.read()] ends the thread and nothing else: the
    flag, the detector and the label are as before, and further steps
    of that thread do nothing.  If the session was active it stays
    active with no loop driving it: [start_detection] does nothing
    then, and only after [stop_detection] does it start a new
    thread. *)
Theorem capture_failure_ends_thread_only (E : Collaborators)
    (a : EmotionDetectionApp) (tid : nat) (w : World) :
  nth_error (threads a) tid = Some AtRead ->
  fst (cap_read w) = false ->
  let a' := step E a (Thread tid w) in
  a' = with_threads a (set_nth tid Finished (threads a)) /\
  nth_error (threads a') tid = Some Finished /\
  (forall w', step E a' (Thread tid w') = a') /\
  (detection_active a = true ->
   start_detection a' = a' /\
   threads (start_detection (snd (stop_detection a'))) =
   threads a' ++ [AtWhile]).
Proof.
  intros Hn Hr a'.
  assert (Ha' : a' = with_threads a (set_nth tid Finished (threads a))).
  { subst a'. rewrite (step_at E a tid w AtRead Hn).
    cbn [run_detection_step]. destruct (cap_read w) as [ret frame].
    simpl in Hr. subst ret. reflexivity. }
  assert (Hf : nth_error (threads a') tid = Some Finished).
  { rewrite Ha'. apply (nth_error_set_nth tid Finished (threads a) AtRead Hn). }
  split; [exact Ha'|]. split; [exact Hf|]. split.
  - intros w'. rewrite (step_at E a' tid w' Finished Hf).
    cbn [run_detection_step fst snd].
    rewrite (set_nth_same tid Finished (threads a') Hf).
    apply with_threads_same.
  - intros Hact. rewrite Ha'. unfold start_detection, stop_detection.
    cbn [with_threads detection_active]. rewrite Hact. split; reflexivity.
Qed.

Lemma capture_failure_ends_thread_only_witness :
  nth_error (threads Fixture.reading) 0 = Some AtRead /\
  fst (cap_read Fixture.failed_read) = false /\
  detection_active (step (Sample.sees Sample.happy) Fixture.reading
                         (Thread 0 Fixture.failed_read)) = true /\
  nth_error (threads (step (Sample.sees Sample.happy) Fixture.reading
                           (Thread 0 Fixture.failed_read))) 0 = Some Finished.
Proof.
  assert (Hn : nth_error (threads Fixture.reading) 0 = Some AtRead)
    by reflexivity.
  assert (Hr : fst (cap_read Fixture.failed_read) = false) by reflexivity.
  split; [exact Hn|]. split; [exact Hr|]. split; [reflexivity|].
  apply (proj1 (proj2 (capture_failure_ends_thread_only
                         (Sample.sees Sample.happy) Fixture.reading 0
                         Fixture.failed_read Hn Hr))).
Defined.

(** Where a thread stands after a step that is not a start, while the
    session is inactive. *)
Lemma step_towards_finish E a act tid pc :
  detection_active a = false ->
  is_start act = false ->
  nth_error (threads a) tid = Some pc ->
  detection_active (step E a act) = false /\
  exists pc',
    nth_error (threads (step E a act)) tid = Some pc' /\
    steps_to_finish pc' <=
    steps_to_finish pc - (if is_step_of tid act then 1 else 0).
Proof.
  intros Ha Hs Hn. destruct act as [| | |tid' w]; [discriminate| | |].
  - simpl. unfold stop_detection. rewrite Ha. simpl.
    split; [exact Ha|]. exists pc. split; [exact Hn|lia].
  - simpl. split; [reflexivity|]. exists pc. split; [exact Hn|lia].
  - destruct (nth_error (threads a) tid') as [pc0|] eqn:Hn'.
    2:{ rewrite (step_out_of_range E a tid' w Hn').
        split; [exact Ha|]. exists pc. split; [exact Hn|].
        simpl. destruct (Nat.eqb_spec tid tid') as [->|_]; [congruence|lia]. }
    rewrite (step_at E a tid' w pc0 Hn').
    destruct (run_detection_step_flag E w pc0 a) as [Hflag _].
    split; [simpl; rewrite Hflag; exact Ha|].
    cbn [threads with_threads is_step_of].
    destruct (Nat.eqb_spec tid tid') as [<-|Hne].
    + assert (pc0 = pc) by congruence. subst pc0.
      exists (fst (run_detection_step E w pc a)).
      split; [apply (nth_error_set_nth tid _ (threads a) pc Hn)|].
      destruct pc as [| |frame|emotion|]; simpl.
      * rewrite Ha. simpl. lia.
      * destruct (cap_read w) as [[|] frame]; simpl; lia.
      * destruct (snd (detect_emotion E frame)) as [[[fb em] cf]|e];
          simpl; lia.
      * lia.
      * lia.
    + exists pc. split; [|lia].
      rewrite nth_error_set_nth_ne by congruence. exact Hn.
Qed.

Lemma steps_to_finish_0 pc : steps_to_finish pc = 0 -> pc = Finished.
Proof. destruct pc; simpl; intros H; try discriminate; reflexivity. Qed.

Lemma run_towards_finish E acts : forall a tid pc,
  detection_active a = false ->
  no_start acts = true ->
  nth_error (threads a) tid = Some pc ->
  detection_active (run E a acts) = false /\
  exists pc',
    nth_error (threads (run E a acts)) tid = Some pc' /\
    steps_to_finish pc' <= steps_to_finish pc - steps_of tid acts.
Proof.
  induction acts as [|act acts IH]; intros a tid pc Ha Hs Hn.
  - simpl. split; [exact Ha|]. exists pc. split; [exact Hn|].
    unfold steps_of. simpl. lia.
  - unfold no_start in Hs. simpl in Hs. apply andb_prop in Hs.
    destruct Hs as [Hact Hs]. apply negb_true_iff in Hact.
    destruct (step_towards_finish E a act tid pc Ha Hact Hn)
      as (Ha1 & pc1 & Hn1 & Hle1).
    destruct (IH (step E a act) tid pc1 Ha1 Hs Hn1) as (Ha2 & pc2 & Hn2 & Hle2).
    simpl run. split; [exact Ha2|]. exists pc2. split; [exact Hn2|].
    unfold steps_of in *. simpl filter.
    destruct (is_step_of tid act); simpl length; lia.
Qed.

(** X13. Cancellation is cooperative and prompt.  Once the flag is
    lowered and as long as the session is not started again, a
    detection thread has finished after at most four of its own steps
    (at most one when it has not yet passed its test), whatever the
    other threads and the callbacks do in between, and whatever its
    reads and detections return. *)
Theorem thread_finishes_after_stop (E : Collaborators)
    (a : EmotionDetectionApp) (acts : list Action) (tid : nat)
    (pc : ThreadPc) :
  detection_active a = false ->
  no_start acts = true ->
  nth_error (threads a) tid = Some pc ->
  steps_to_finish pc <= 4 /\
  (steps_to_finish pc <= steps_of tid acts ->
   nth_error (threads (run E a acts)) tid = Some Finished /\
   detection_active (run E a acts) = false).
Proof.
  intros Ha Hs Hn. split; [destruct pc; simpl; lia|].
  intros Hsteps.
  destruct (run_towards_finish E acts a tid pc Ha Hs Hn)
    as (Ha' & pc' & Hn' & Hle).
  split; [|exact Ha'].
  rewrite Hn'. f_equal. apply steps_to_finish_0. lia.
Qed.

Lemma thread_finishes_after_stop_witness :
  let E := Sample.sees Sample.happy in
  let a := run E EmotionDetectionApp_init
               [Start; Thread 0 Sample.tick; Stop] in
  let acts := iteration 0 Sample.tick in
  detection_active a = false /\
  no_start acts = true /\
  nth_error (threads a) 0 = Some AtRead /\
  steps_to_finish AtRead <= steps_of 0 acts /\
  nth_error (threads (run E a acts)) 0 = Some Finished.
Proof.
  intros E a acts.
  assert (Ha : detection_active a = false) by reflexivity.
  assert (Hs : no_start acts = true) by reflexivity.
  assert (Hn : nth_error (threads a) 0 = Some AtRead) by reflexivity.
  assert (Hk : steps_to_finish AtRead <= steps_of 0 acts)
    by (vm_compute; lia).
  split; [exact Ha|]. split; [exact Hs|]. split; [exact Hn|].
  split; [exact Hk|].
  apply (proj1 (proj2 (thread_finishes_after_stop E a acts 0 AtRead
                         Ha Hs Hn) Hk)).
Defined.

(** One record block on a history that holds the last 100 of [L]. *)
Lemma record_extends emotion t d (L : list string) :
  Deque.maxlen (emotion_history d) = Some 100 ->
  Deque.items (emotion_history d) = lastn 100 L ->
  exists x,
    length x <= 1 /\
    Deque.items (emotion_history (run_detection_record emotion t d)) =
    lastn 100 (L ++ x).
Proof.
  intros Hm Hi. unfold run_detection_record.
  destruct emotion as [label|].
  - destruct (truthy_label (Some label)).
    + exists [label]. split; [simpl; lia|].
      simpl. apply append_lastn; assumption.
    + exists []. split; [simpl; lia|]. rewrite app_nil_r. exact Hi.
  - exists []. split; [simpl; lia|]. rewrite app_nil_r. exact Hi.
Qed.

(** A step that is not a start, while the session is inactive, either
    leaves the detector alone or is the record block of an iteration
    in flight, which is then no longer in flight. *)
Lemma step_after_stop E a act :
  detection_active a = false ->
  is_start act = false ->
  detection_active (step E a act) = false /\
  ((detector (step E a act) = detector a /\
    in_flight_count (step E a act) <= in_flight_count a) \/
   (exists emotion t,
      detector (step E a act) = run_detection_record emotion t (detector a) /\
      S (in_flight_count (step E a act)) = in_flight_count a)).
Proof.
  intros Ha Hs. destruct act as [| | |tid w]; [discriminate| | |].
  - simpl. unfold stop_detection. rewrite Ha. simpl.
    split; [exact Ha|]. left. split; [reflexivity|lia].
  - simpl. split; [reflexivity|]. left. split; [reflexivity|].
    unfold in_flight_count. simpl. lia.
  - destruct (nth_error (threads a) tid) as [pc|] eqn:Hn.
    2:{ rewrite (step_out_of_range E a tid w Hn).
        split; [exact Ha|]. left. split; [reflexivity|lia]. }
    rewrite (step_at E a tid w pc Hn).
    destruct (run_detection_step_flag E w pc a) as [Hflag _].
    split; [simpl; rewrite Hflag; exact Ha|].
    unfold in_flight_count. cbn [threads with_threads detector].
    pose proof (count_set_nth in_flight tid
                  (fst (run_detection_step E w pc a)) pc (threads a) Hn)
      as Hcount.
    destruct pc as [| |frame|emotion|]; simpl in *.
    + rewrite Ha in *. simpl in *. left. split; [reflexivity|lia].
    + left. destruct (cap_read w) as [[|] frame]; simpl in *;
        (split; [reflexivity|lia]).
    + left. destruct (snd (detect_emotion E frame)) as [[[fb em] cf]|e];
        simpl in *; (split; [reflexivity|lia]).
    + right. exists emotion, (now w). split; [reflexivity|lia].
    + left. split; [reflexivity|lia].
Qed.

Lemma run_after_stop E acts : forall a (L : list string),
  detection_active a = false ->
  no_start acts = true ->
  Deque.maxlen (emotion_history (detector a)) = Some 100 ->
  Deque.items (emotion_history (detector a)) = lastn 100 L ->
  exists extra,
    length extra <= in_flight_count a /\
    Deque.items (emotion_history (detector (run E a acts))) =
    lastn 100 (L ++ extra).
Proof.
  induction acts as [|act acts IH]; intros a L Ha Hs Hm Hi.
  - exists []. split; [simpl; lia|]. rewrite app_nil_r. exact Hi.
  - unfold no_start in Hs. simpl in Hs. apply andb_prop in Hs.
    destruct Hs as [Hact Hs]. apply negb_true_iff in Hact.
    destruct (step_after_stop E a act Ha Hact)
      as (Ha1 & [(Hd & Hc)|(emotion & t & Hd & Hc)]).
    + destruct (IH (step E a act) L Ha1 Hs) as (extra & Hlen & Hitems).
      * rewrite Hd. exact Hm.
      * rewrite Hd. exact Hi.
      * exists extra. split; [lia|exact Hitems].
    + destruct (record_extends emotion t (detector a) L Hm Hi)
        as (x & Hx & Hix).
      destruct (IH (step E a act) (L ++ x) Ha1 Hs) as (extra & Hlen & Hitems).
      * rewrite Hd. unfold run_detection_record.
        destruct emotion as [label|]; [|exact Hm].
        destruct (truthy_label (Some label)); [|exact Hm].
        simpl. rewrite append_maxlen. exact Hm.
      * rewrite Hd. exact Hix.
      * exists (x ++ extra). split.
        -- rewrite length_app. lia.
        -- simpl run. rewrite Hitems, app_assoc. reflexivity.
Qed.

(** X14. What is recorded after the flag is lowered is bounded: as
    long as the session is not started again, the history only gains
    labels on the right (the oldest leaving at capacity 100), and at
    most one label for each iteration that was in flight when the flag
    went down. *)
Theorem appends_after_stop_bounded (E : Collaborators)
    (a : EmotionDetectionApp) (acts : list Action) :
  detection_active a = false ->
  no_start acts = true ->
  parallel (detector a) ->
  exists extra,
    length extra <= in_flight_count a /\
    Deque.items (emotion_history (detector (run E a acts))) =
    lastn 100 (Deque.items (emotion_history (detector a)) ++ extra).
Proof.
  intros Ha Hs ((Hm & _) & _ & Hlen).
  apply run_after_stop; try assumption.
  symmetry. apply lastn_all. exact Hlen.
Qed.

Lemma appends_after_stop_bounded_witness :
  let E := Sample.sees Sample.happy in
  let a := run E EmotionDetectionApp_init
               [Start; Thread 0 Sample.tick; Stop] in
  detection_active a = false /\
  parallel (detector a) /\
  in_flight_count a = 1 /\
  exists extra,
    length extra <= 1 /\
    Deque.items (emotion_history
                   (detector (run E a (iteration 0 Sample.tick)))) =
    lastn 100 (Deque.items (emotion_history (detector a)) ++ extra).
Proof.
  intros E a.
  assert (Ha : detection_active a = false) by reflexivity.
  assert (Hp : parallel (detector a)).
  { split; [split; reflexivity|]. split; [reflexivity|].
    unfold Deque.len. simpl. lia. }
  split; [exact Ha|]. split; [exact Hp|]. split; [reflexivity|].
  apply (appends_after_stop_bounded E a (iteration 0 Sample.tick)
           Ha eq_refl Hp).
Defined.

Lemma stats_truthy_history d :
  Dict.truthy (get_emotion_stats d) = true ->
  Deque.items (emotion_history d) <> [].
Proof.
  intros H E. unfold get_emotion_stats, Deque.truthy in H.
  rewrite E in H. discriminate.
Qed.

(** The texts the statistics label can show. *)
Lemma step_label E a act :
  (emotion_stats_label a = emotion_stats_label EmotionDetectionApp_init \/
   exists d, Deque.items (emotion_history d) <> [] /\
             emotion_stats_label a = stats_text (get_emotion_stats d)) ->
  (emotion_stats_label (step E a act) =
   emotion_stats_label EmotionDetectionApp_init \/
   exists d, Deque.items (emotion_history d) <> [] /\
             emotion_stats_label (step E a act) =
             stats_text (get_emotion_stats d)).
Proof.
  intros H. destruct act as [| | |tid w].
  - simpl. unfold start_detection. destruct (detection_active a); exact H.
  - simpl. unfold stop_detection. destruct (detection_active a); [|exact H].
    simpl. destruct (Dict.truthy (get_emotion_stats (detector a))) eqn:Et;
      [|exact H].
    right. exists (detector a). split; [|reflexivity].
    apply stats_truthy_history, Et.
  - exact H.
  - destruct (nth_error (threads a) tid) as [pc|] eqn:Hn.
    + rewrite (step_at E a tid w pc Hn). simpl.
      destruct pc as [| |frame|emotion|]; simpl.
      * destruct (detection_active a); exact H.
      * destruct (cap_read w) as [[|] frame]; exact H.
      * destruct (snd (detect_emotion E frame)) as [[[fb em] cf]|e]; exact H.
      * exact H.
      * exact H.
    + rewrite (step_out_of_range E a tid w Hn). exact H.
Qed.

(** X15. The statistics label changes only in [stop_detection]: no
    start, closing or thread step writes it.  In every reachable state
    it shows either the text set when the window was built or the
    statistics text of a non-empty history; so the statistics of a
    session stay on display through the next session until a stop
    that has something to show. *)
Theorem stats_label_written_only_by_stop (E : Collaborators) :
  (forall a act,
     is_stop act = false ->
     emotion_stats_label (step E a act) = emotion_stats_label a) /\
  (forall a,
     detection_active a = true ->
     Deque.items (emotion_history (detector a)) = [] ->
     emotion_stats_label (step E a Stop) = emotion_stats_label a) /\
  (forall a,
     reachable E a ->
     emotion_stats_label a = emotion_stats_label EmotionDetectionApp_init \/
     exists d, Deque.items (emotion_history d) <> [] /\
               emotion_stats_label a = stats_text (get_emotion_stats d)).
Proof.
  split; [|split].
  - intros a act Hs. destruct act as [| | |tid w]; [| discriminate | |].
    + simpl. unfold start_detection. destruct (detection_active a);
        reflexivity.
    + reflexivity.
    + destruct (nth_error (threads a) tid) as [pc|] eqn:Hn.
      * rewrite (step_at E a tid w pc Hn). simpl.
        destruct pc as [| |frame|emotion|]; simpl; try reflexivity.
        -- destruct (detection_active a); reflexivity.
        -- destruct (cap_read w) as [[|] frame]; reflexivity.
        -- destruct (snd (detect_emotion E frame)) as [[[fb em] cf]|e];
             reflexivity.
      * rewrite (step_out_of_range E a tid w Hn). reflexivity.
  - intros a Ha He. simpl. unfold stop_detection. rewrite Ha. simpl.
    unfold get_emotion_stats, Deque.truthy. rewrite He. reflexivity.
  - intros a [acts ->].
    assert (G : forall acts a0,
               (emotion_stats_label a0 =
                emotion_stats_label EmotionDetectionApp_init \/
                exists d, Deque.items (emotion_history d) <> [] /\
                          emotion_stats_label a0 =
                          stats_text (get_emotion_stats d)) ->
               (emotion_stats_label (run E a0 acts) =
                emotion_stats_label EmotionDetectionApp_init \/
                exists d, Deque.items (emotion_history d) <> [] /\
                          emotion_stats_label (run E a0 acts) =
                          stats_text (get_emotion_stats d))).
    { clear acts. induction acts as [|act acts IH]; intros a0 H0.
      - exact H0.
      - simpl. apply IH, step_label, H0. }
    apply G. left. reflexivity.
Qed.

Lemma stats_label_written_only_by_stop_witness :
  reachable (Sample.sees Sample.happy)
            (start_detection Fixture.stopped_with_happy) /\
  emotion_stats_label (start_detection Fixture.stopped_with_happy) =
  emotion_stats_label Fixture.stopped_with_happy.
Proof.
  split.
  - exists (Start :: iteration 0 Sample.tick ++ [Stop; Start]). reflexivity.
  - apply (proj1 (stats_label_written_only_by_stop (Sample.sees Sample.happy))
             Fixture.stopped_with_happy Start).
    reflexivity.
Defined.

(** X16. Stopping does not end a thread that has not tested the flag
    since: when the session is started again before that test, the
    old thread passes it, and so does the thread that the start adds.
    Two loops then read frames and record into the same history. *)
Theorem restart_before_test_runs_two_loops (E : Collaborators)
    (a : EmotionDetectionApp) (tid : nat) (w w' : World) :
  detection_active a = false ->
  nth_error (threads a) tid = Some AtWhile ->
  let new := length (threads a) in
  let a' := run E a [Start; Thread tid w; Thread new w'] in
  tid <> new /\
  detection_active a' = true /\
  nth_error (threads a') tid = Some AtRead /\
  nth_error (threads a') new = Some AtRead /\
  detector a' = reset_emotion_history (detector a).
Proof.
  intros Ha Hn new a'.
  assert (Hlt : tid < length (threads a))
    by (apply nth_error_Some; congruence).
  assert (Hne : tid <> new) by (subst new; lia).
  set (a1 := start_detection a).
  assert (H1 : a1 = {| detector := reset_emotion_history (detector a);
                       detection_active := true;
                       emotion_stats_label := emotion_stats_label a;
                       threads := threads a ++ [AtWhile] |})
    by (unfold a1, start_detection; rewrite Ha; reflexivity).
  assert (Hn1 : nth_error (threads a1) tid = Some AtWhile)
    by (rewrite H1; simpl; apply nth_error_old, Hn).
  assert (Hnew1 : nth_error (threads a1) new = Some AtWhile)
    by (rewrite H1; simpl; apply nth_error_new).
  assert (Hact1 : detection_active a1 = true) by (rewrite H1; reflexivity).
  set (a2 := step E a1 (Thread tid w)).
  assert (H2 : a2 = with_threads a1 (set_nth tid AtRead (threads a1))).
  { unfold a2. rewrite (step_at E a1 tid w AtWhile Hn1).
    cbn [run_detection_step]. rewrite Hact1. reflexivity. }
  assert (Hnew2 : nth_error (threads a2) new = Some AtWhile).
  { rewrite H2. cbn [threads with_threads].
    rewrite nth_error_set_nth_ne by exact Hne. exact Hnew1. }
  assert (H3 : a' = with_threads a2 (set_nth new AtRead (threads a2))).
  { unfold a'. change (run E a [Start; Thread tid w; Thread new w'])
      with (step E a2 (Thread new w')).
    rewrite (step_at E a2 new w' AtWhile Hnew2).
    cbn [run_detection_step]. rewrite H2. cbn [with_threads detection_active].
    rewrite Hact1. reflexivity. }
  split; [exact Hne|]. rewrite H3. cbn [with_threads detection_active threads detector].
  split; [rewrite H2; exact Hact1|]. split; [|split].
  - rewrite nth_error_set_nth_ne by congruence.
    rewrite H2. apply (nth_error_set_nth tid AtRead (threads a1) AtWhile Hn1).
  - apply (nth_error_set_nth new AtRead (threads a2) AtWhile Hnew2).
  - rewrite H2, H1. reflexivity.
Qed.

Lemma restart_before_test_runs_two_loops_witness :
  let E := Sample.sees Sample.happy in
  let a' := run E Fixture.stopped_untested
                [Start; Thread 0 Sample.tick; Thread 1 Sample.tick] in
  detection_active Fixture.stopped_untested = false /\
  nth_error (threads Fixture.stopped_untested) 0 = Some AtWhile /\
  nth_error (threads a') 0 = Some AtRead /\
  nth_error (threads a') 1 = Some AtRead.
Proof.
  intros E a'.
  assert (Ha : detection_active Fixture.stopped_untested = false)
    by reflexivity.
  assert (Hn : nth_error (threads Fixture.stopped_untested) 0 = Some AtWhile)
    by reflexivity.
  split; [exact Ha|]. split; [exact Hn|].
  destruct (restart_before_test_runs_two_loops E Fixture.stopped_untested 0
              Sample.tick Sample.tick Ha Hn) as (_ & _ & H0 & H1 & _).
  split; [exact H0|exact H1].
Defined.
